(** * CTF Gameserver: the Checker Master's scheduling loop

    A shallow embedding of [src/ctf_gameserver/checker/master.py]
    (class [MasterLoop]) and the properties of its launch-rate computation,
    its launch passes and its request protocol.

    Conventions of the embedding:
    - Python [int] is [Z]; Python [float] seconds (tick duration, maximum
      check duration, interval, monotonic and wall clock) are exact rationals
      [Q], so [math.floor] and [math.ceil] are [Qfloor] and [Qceiling];
    - a method of [MasterLoop] is a computation [M A] over the system state
      (the object's fields and the collaborators' state) that ends normally,
      raises a Python exception, or runs out of loop fuel, and that reports
      every call it makes to a collaborator as an [Event], in call order. *)

From Stdlib Require Import ZArith QArith Qround Lia Lqa.
From Stdlib.Strings Require Import Ascii String Byte.
From stdpp Require Import gmap strings list fin_maps pretty.

Set Warnings "-register-all".
Local Open Scope Z_scope.

(** ** Python values, exceptions and outcomes *)

(** The values carried by a request's [param] and by a reply. *)
Inductive pyval : Type :=
| PNone
| PInt (z : Z)
| PStr (s : string)
| PDict (d : gmap string pyval).

(** The exceptions the embedded code raises or lets through. *)
Inductive exn : Type :=
| ValueError (msg : string)
| ZeroDivisionError
| KeyError (key : string)
| TypeError
| OtherError (name : string).

Inductive outcome (A : Type) : Type :=
| Normal (a : A)
| Raise (e : exn)
| OutOfFuel.
Arguments Normal {A} a.
Arguments Raise {A} e.
Arguments OutOfFuel {A}.

(** ** Data model *)

(** [task_info] of a Runner: [{'service': ..., 'team': ..., 'tick': ...}]. *)
Record TaskInfo : Type := mkTaskInfo {
  info_service : string;
  info_team : Z;
  info_tick : Z
}.

(** A row of the task backlog, as [get_new_tasks] yields it. *)
Record Task : Type := mkTask {
  task_team_id : Z;
  task_tick : Z
}.

(** A request as [supervisor.get_request()] yields it; [req_send] names the
    connection on which the reply is sent. *)
Record Request : Type := mkRequest {
  req_runner_id : nat;
  req_action : string;
  req_info : TaskInfo;
  req_param : pyval;
  req_send : nat
}.

Inductive LogLevel : Type := ERROR | INFO | EXCEPTION.

(** Calls to the collaborators (Supervisor, databases, reply connections,
    logging), as they appear in a run. *)
Inductive Event : Type :=
| EvGetRequest
| EvTerminateRunner (runner_id : nat)
| EvTerminateRunners
| EvStartRunner (args : list string) (info : TaskInfo)
| EvSend (conn : nat) (resp : pyval)
| EvGetCurrentTick
| EvGetTaskCount (service_id : Z)
| EvGetNewTasks (service_id : Z) (limit : option Z)
| EvCommitResult (service_id team tick result : Z)
| EvLoadState (service_id team : Z) (key : pyval)
| EvStoreState (service_id team : Z) (key data : pyval)
| EvLog (level : LogLevel) (msg : string) (args : list pyval).

(** The constructor arguments and the rows read in [__init__]; none of them
    is assigned after construction. *)
Record Config : Type := mkConfig {
  checker_script : string;
  sudo_user : option string;
  max_check_duration : Q;
  checker_count : Z;
  interval : Q;
  ip_pattern : string;
  flag_secret : string;
  tick_duration : Q;
  flag_valid_ticks : Z;
  service_id : Z;
  service_name : string
}.

(** The state of the system: the object's configuration, the mutable fields
    of [MasterLoop] (the next four) and what the collaborators hold. *)
Record State : Type := mkState {
  config : Config;
  known_tick : Z;
  last_launch : Q;
  tasks_per_launch : option Z;
  shutting_down : bool;
  (* game database *)
  db_current_tick : Z;
  db_task_count : Z;
  db_backlog : list Task;
  (* state database *)
  db_state : gmap (Z * Z * string) pyval;
  (* supervisor *)
  sup_queue : list Request;
  sup_processes : gmap nat TaskInfo;
  sup_next_id : nat;
  (* clocks: the n-th reading of time.monotonic(), and the wall clock *)
  monotonic : nat -> Q;
  monotonic_reads : nat;
  utcnow : Q
}.

Definition set_known_tick (v : Z) (s : State) : State :=
  mkState (config s) v (last_launch s) (tasks_per_launch s) (shutting_down s)
    (db_current_tick s) (db_task_count s) (db_backlog s) (db_state s)
    (sup_queue s) (sup_processes s) (sup_next_id s)
    (monotonic s) (monotonic_reads s) (utcnow s).

Definition set_last_launch (v : Q) (s : State) : State :=
  mkState (config s) (known_tick s) v (tasks_per_launch s) (shutting_down s)
    (db_current_tick s) (db_task_count s) (db_backlog s) (db_state s)
    (sup_queue s) (sup_processes s) (sup_next_id s)
    (monotonic s) (monotonic_reads s) (utcnow s).

Definition set_tasks_per_launch (v : option Z) (s : State) : State :=
  mkState (config s) (known_tick s) (last_launch s) v (shutting_down s)
    (db_current_tick s) (db_task_count s) (db_backlog s) (db_state s)
    (sup_queue s) (sup_processes s) (sup_next_id s)
    (monotonic s) (monotonic_reads s) (utcnow s).

Definition set_db_backlog (v : list Task) (s : State) : State :=
  mkState (config s) (known_tick s) (last_launch s) (tasks_per_launch s) (shutting_down s)
    (db_current_tick s) (db_task_count s) v (db_state s)
    (sup_queue s) (sup_processes s) (sup_next_id s)
    (monotonic s) (monotonic_reads s) (utcnow s).

Definition set_db_state (v : gmap (Z * Z * string) pyval) (s : State) : State :=
  mkState (config s) (known_tick s) (last_launch s) (tasks_per_launch s) (shutting_down s)
    (db_current_tick s) (db_task_count s) (db_backlog s) v
    (sup_queue s) (sup_processes s) (sup_next_id s)
    (monotonic s) (monotonic_reads s) (utcnow s).

Definition set_sup_queue (v : list Request) (s : State) : State :=
  mkState (config s) (known_tick s) (last_launch s) (tasks_per_launch s) (shutting_down s)
    (db_current_tick s) (db_task_count s) (db_backlog s) (db_state s)
    v (sup_processes s) (sup_next_id s)
    (monotonic s) (monotonic_reads s) (utcnow s).

Definition set_sup_processes (v : gmap nat TaskInfo) (n : nat) (s : State) : State :=
  mkState (config s) (known_tick s) (last_launch s) (tasks_per_launch s) (shutting_down s)
    (db_current_tick s) (db_task_count s) (db_backlog s) (db_state s)
    (sup_queue s) v n
    (monotonic s) (monotonic_reads s) (utcnow s).

Definition set_monotonic_reads (n : nat) (s : State) : State :=
  mkState (config s) (known_tick s) (last_launch s) (tasks_per_launch s) (shutting_down s)
    (db_current_tick s) (db_task_count s) (db_backlog s) (db_state s)
    (sup_queue s) (sup_processes s) (sup_next_id s)
    (monotonic s) n (utcnow s).

(** ** The monad of methods *)

(** A computation returns its outcome, the state it leaves (also when it
    raises: Python does not roll assignments back) and the calls it made. *)
Definition M (A : Type) : Type := State -> outcome A * State * list Event.

Definition ret {A} (a : A) : M A := fun s => (Normal a, s, []).

Definition bind {A B} (m : M A) (k : A -> M B) : M B := fun s =>
  match m s with
  | (Normal a, s1, evs1) =>
      match k a s1 with (o, s2, evs2) => (o, s2, evs1 ++ evs2) end
  | (Raise e, s1, evs1) => (Raise e, s1, evs1)
  | (OutOfFuel, s1, evs1) => (OutOfFuel, s1, evs1)
  end.

Notation "x <- m ;; k" := (bind m (fun x => k))
  (at level 100, m at next level, right associativity).
Notation "m ;;; k" := (bind m (fun _ => k))
  (at level 100, right associativity).

Definition raise {A} (e : exn) : M A := fun s => (Raise e, s, []).
Definition lift {A} (o : outcome A) : M A := fun s => (o, s, []).
Definition gets {A} (f : State -> A) : M A := fun s => (Normal (f s), s, []).
Definition modify (f : State -> State) : M unit := fun s => (Normal tt, f s, []).
Definition emit (e : Event) : M unit := fun s => (Normal tt, s, [e]).

(** [try: body / except: handler / else: orelse] with a bare [except]. The
    handler and the [else] suite run outside the protected region. *)
Definition try_except_else {A B} (body : M A) (handler : exn -> M B)
    (orelse : A -> M B) : M B := fun s =>
  match body s with
  | (Normal a, s1, evs1) =>
      match orelse a s1 with (o, s2, evs2) => (o, s2, evs1 ++ evs2) end
  | (Raise e, s1, evs1) =>
      match handler e s1 with (o, s2, evs2) => (o, s2, evs1 ++ evs2) end
  | (OutOfFuel, s1, evs1) => (OutOfFuel, s1, evs1)
  end.

(** [for x in xs: body x]. *)
Fixpoint for_each {A} (xs : list A) (body : A -> M unit) : M unit :=
  match xs with
  | [] => ret tt
  | x :: xs' => body x ;;; for_each xs' body
  end.

Definition logging (level : LogLevel) (msg : string) (args : list pyval) : M unit :=
  emit (EvLog level msg args).

(** ** What the Python runtime and the libraries provide *)

(** Results of calls that either return or raise. *)
Inductive result (A : Type) : Type :=
| Ok (a : A)
| Err (e : exn).
Arguments Ok {A} a.
Arguments Err {A} e.

Definition lift_result {A} (r : result A) : M A :=
  match r with
  | Ok a => ret a
  | Err e => raise e
  end.

(** Functions of the standard library and of [ctf_gameserver.lib] that
    [master.py] calls and whose code is outside of it. They are kept
    abstract; [b64decode_empty] is the one fact about them the flag handler
    relies on ([base64.b64decode('') == b'']). *)
Class Runtime : Type := {
  (* base64.b64decode *)
  b64decode : pyval -> result (list byte);
  b64decode_empty : b64decode (PStr "") = Ok [];
  (* int(s) for a str: None stands for ValueError *)
  int_of_str : string -> option Z;
  (* whether CheckResult(result) finds a member with that value *)
  check_result_known : Z -> bool;
  (* flag_lib.generate(team, service, secret, payload, timestamp) *)
  generate : Z -> Z -> string -> option (list byte) -> Q -> result string;
  (* ip_pattern % team_id *)
  percent_format : string -> Z -> string
}.

(** [int(param)]. *)
Definition py_int `{Runtime} (param : pyval) : result Z :=
  match param with
  | PInt z => Ok z
  | PStr s =>
      match int_of_str s with
      | Some z => Ok z
      | None => Err (ValueError "invalid literal for int()")
      end
  | PNone | PDict _ => Err TypeError
  end.

(** [CheckResult(result)]: the enum lookup raises [ValueError] for a value
    that is no member's. *)
Definition CheckResult `{Runtime} (value : Z) : result Z :=
  if check_result_known value then Ok value
  else Err (ValueError "is not a valid CheckResult").

(** [params[key]]. *)
Definition subscript (params : pyval) (key : string) : result pyval :=
  match params with
  | PDict d =>
      match d !! key with
      | Some v => Ok v
      | None => Err (KeyError key)
      end
  | PNone | PInt _ | PStr _ => Err TypeError
  end.

(** [a / b] on numbers, and the two roundings of [math]. *)
Definition truediv (a b : Q) : result Q :=
  if Qeq_bool b 0 then Err ZeroDivisionError else Ok (a / b)%Q.

Definition math_ceil (x : Q) : Z := Qceiling x.
Definition math_floor (x : Q) : Z := Qfloor x.

(** [str(n)] of an int. *)
Definition str (n : Z) : string := pretty n.

Definition is_ValueError (e : exn) : bool :=
  match e with ValueError _ => true | _ => false end.

Definition is_KeyError (e : exn) : bool :=
  match e with KeyError _ => true | _ => false end.

(** [try: body / except E: handler] for the exceptions [catches] selects. *)
Definition try_except {A} (body : M A) (catches : exn -> bool) (handler : M A) : M A :=
  fun s =>
  match body s with
  | (Raise e, s1, evs1) =>
      if catches e
      then match handler s1 with (o, s2, evs2) => (o, s2, evs1 ++ evs2) end
      else (Raise e, s1, evs1)
  | r => r
  end.

(** ** Collaborators *)

(** Modelled from the spec: the names of the four recognized actions,
    constants of [ctf_gameserver.checker.supervisor]. *)
Definition ACTION_FLAG : string := "FLAG".
Definition ACTION_LOAD : string := "LOAD".
Definition ACTION_STORE : string := "STORE".
Definition ACTION_RESULT : string := "RESULT".

Module supervisor.

(** Modelled from the spec: [RunnerSupervisor] is not part of [master.py].
    The Supervisor owns a queue of pending requests and a registry of live
    Runners keyed by the identifier assigned at start. *)

(** Modelled from the spec: non-blocking retrieval of the next pending
    request, [None] when there is none. *)
Definition get_request : M (option Request) := fun s =>
  match sup_queue s with
  | [] => (Normal None, s, [EvGetRequest])
  | r :: q => (Normal (Some r), set_sup_queue q s, [EvGetRequest])
  end.

(** Modelled from the spec: forcibly terminate one Runner; a lookup and
    kill in the registry. *)
Definition terminate_runner (runner_id : nat) : M unit := fun s =>
  (Normal tt, set_sup_processes (delete runner_id (sup_processes s)) (sup_next_id s) s,
   [EvTerminateRunner runner_id]).

(** Modelled from the spec: terminate all Runners. *)
Definition terminate_runners : M unit := fun s =>
  (Normal tt, set_sup_processes ∅ (sup_next_id s) s, [EvTerminateRunners]).

(** Modelled from the spec: start a Runner for the given arguments and
    task metadata, under a fresh identifier. *)
Definition start_runner (args : list string) (info : TaskInfo) : M unit := fun s =>
  (Normal tt,
   set_sup_processes (<[sup_next_id s := info]> (sup_processes s)) (S (sup_next_id s)) s,
   [EvStartRunner args info]).

(** Modelled from the spec: [req['send'].send(resp)], the one reply on the
    request's connection. *)
Definition send (conn : nat) (resp : pyval) : M unit := emit (EvSend conn resp).

End supervisor.

Module database.

(** Modelled from the spec: [ctf_gameserver.checker.database] is not part
    of [master.py]; section 6 of the specification gives its interface. *)

(** Modelled from the spec: the current tick, [-1] before the start. *)
Definition get_current_tick : M Z := fun s =>
  (Normal (db_current_tick s), s, [EvGetCurrentTick]).

(** Modelled from the spec: the number of teams to check in this tick. *)
Definition get_task_count (service_id : Z) : M Z := fun s =>
  (Normal (db_task_count s), s, [EvGetTaskCount service_id]).

(** Modelled from the spec: at most [limit] tasks, in order, taken off the
    backlog ([None] as in SQL: no limit). *)
Definition get_new_tasks (service_id : Z) (limit : option Z) : M (list Task) := fun s =>
  let n := match limit with
           | Some l => Z.to_nat l
           | None => length (db_backlog s)
           end in
  (Normal (take n (db_backlog s)), set_db_backlog (drop n (db_backlog s)) s,
   [EvGetNewTasks service_id limit]).

(** Modelled from the spec: persist the outcome of one check. *)
Definition commit_result (service_id team tick result : Z) : M unit :=
  emit (EvCommitResult service_id team tick result).

(** Modelled from the spec: the blob stored under (service, team, key) or
    its absence, for a text key. *)
Definition load_state (service_id team : Z) (key : pyval) : M pyval := fun s =>
  match key with
  | PStr k =>
      (Normal (default PNone (db_state s !! (service_id, team, k))), s,
       [EvLoadState service_id team key])
  | _ => (Raise (OtherError "psycopg2.ProgrammingError"), s,
          [EvLoadState service_id team key])
  end.

(** Modelled from the spec: store the blob under (service, team, key),
    overwriting. *)
Definition store_state (service_id team : Z) (key data : pyval) : M unit := fun s =>
  match key with
  | PStr k =>
      (Normal tt, set_db_state (<[(service_id, team, k) := data]> (db_state s)) s,
       [EvStoreState service_id team key data])
  | _ => (Raise (OtherError "psycopg2.ProgrammingError"), s,
          [EvStoreState service_id team key data])
  end.

End database.

(** [get_monotonic_time()]: the next reading of the monotonic clock. *)
Definition get_monotonic_time : M Q := fun s =>
  (Normal (monotonic s (monotonic_reads s)),
   set_monotonic_reads (S (monotonic_reads s)) s, []).

(** ** The methods of [MasterLoop] *)

Section MasterLoop.

Context `{Runtime}.

(** [update_launch_params]: the number of tasks to start per launch. *)
Definition update_launch_params : M unit :=
  cfg <- gets config ;;
  total_tasks <- database.get_task_count (service_id cfg) ;;
  share <- lift_result (truediv (inject_Z total_tasks) (inject_Z (checker_count cfg))) ;;
  let local_tasks := math_ceil share in
  let margin_seconds := (tick_duration cfg / 6)%Q in
  let launch_timeframe :=
    (tick_duration cfg - max_check_duration cfg - margin_seconds)%Q in
  if Qle_bool launch_timeframe 0
  then raise (ValueError "Maximum Checker Script duration too long for tick")
  else
    per_interval <- lift_result (truediv launch_timeframe (interval cfg)) ;;
    let intervals_per_timeframe := math_floor per_interval in
    per_launch <- lift_result
      (truediv (inject_Z local_tasks) (inject_Z intervals_per_timeframe)) ;;
    modify (set_tasks_per_launch (Some (math_ceil per_launch))).

(** The argument vector of one Runner. *)
Definition runner_args (cfg : Config) (task : Task) : list string :=
  let ip := percent_format (ip_pattern cfg) (task_team_id task) in
  let args :=
    [checker_script cfg; ip; str (task_team_id task); str (task_tick task)] in
  match sudo_user cfg with
  | Some user =>
      ["sudo"; "--user=" +:+ user; "--preserve-env=PATH,CTF_CHECKERSCRIPT";
       "--close-from=5"; "--"] ++ args
  | None => args
  end.

(** [launch_tasks]: one launch pass. *)
Definition launch_tasks : M unit :=
  cfg <- gets config ;;
  current_tick <- database.get_current_tick ;;
  if current_tick <? 0
  then ret tt
  else
    known <- gets known_tick ;;
    (if negb (current_tick =? known)
     then
       supervisor.terminate_runners ;;;
       update_launch_params ;;;
       modify (set_known_tick current_tick)
     else ret tt) ;;;
    per_launch <- gets tasks_per_launch ;;
    tasks <- database.get_new_tasks (service_id cfg) per_launch ;;
    for_each tasks (fun task =>
      let task_info :=
        mkTaskInfo (service_name cfg) (task_team_id task) current_tick in
      logging INFO "Starting Checker Script for team %d in tick %d"
        [PInt (task_team_id task); PInt current_tick] ;;;
      supervisor.start_runner (runner_args cfg task) task_info).

(** [handle_flag_request]. The expiry is a number of seconds, so
    [expiration.timestamp()] is the expiry itself. *)
Definition handle_flag_request (task_info : TaskInfo) (params : pyval) : M pyval :=
  payload <- try_except
    (encoded <- lift_result (subscript params "payload") ;;
     decoded <- lift_result (b64decode encoded) ;;
     ret (Some decoded))
    is_KeyError
    (ret None) ;;
  let payload :=
    match payload with
    | Some [] => None
    | _ => payload
    end in
  cfg <- gets config ;;
  now <- gets utcnow ;;
  let expiration := (now + tick_duration cfg * inject_Z (flag_valid_ticks cfg))%Q in
  token <- lift_result
    (generate (info_team task_info) (service_id cfg) (flag_secret cfg) payload
       expiration) ;;
  ret (PStr token).

(** [handle_load_request]. *)
Definition handle_load_request (task_info : TaskInfo) (param : pyval) : M pyval :=
  cfg <- gets config ;;
  database.load_state (service_id cfg) (info_team task_info) param.

(** [handle_store_request]. *)
Definition handle_store_request (task_info : TaskInfo) (params : pyval) : M unit :=
  cfg <- gets config ;;
  key <- lift_result (subscript params "key") ;;
  data <- lift_result (subscript params "data") ;;
  database.store_state (service_id cfg) (info_team task_info) key data.

(** [handle_result_request]; [None] from a protected block stands for the
    [return] in its handler. *)
Definition handle_result_request (task_info : TaskInfo) (param : pyval) : M unit :=
  parsed <- try_except
    (value <- lift_result (py_int param) ;; ret (Some value))
    is_ValueError
    (logging ERROR "Invalid result from Checker Script for team %d in tick %d: %s"
       [PInt (info_team task_info); PInt (info_tick task_info); param] ;;;
     ret None) ;;
  match parsed with
  | None => ret tt
  | Some value =>
      checked <- try_except
        (check_result <- lift_result (CheckResult value) ;; ret (Some check_result))
        is_ValueError
        (logging ERROR "Invalid result from Checker Script for team %d in tick %d: %d"
           [PInt (info_team task_info); PInt (info_tick task_info); PInt value] ;;;
         ret None) ;;
      match checked with
      | None => ret tt
      | Some check_result =>
          cfg <- gets config ;;
          logging INFO "Result from Checker Script for team %d in tick %d: %d"
            [PInt (info_team task_info); PInt (info_tick task_info);
             PInt check_result] ;;;
          database.commit_result (service_id cfg) (info_team task_info)
            (info_tick task_info) value
      end
  end.

(** The [try] suite of [step]: the dispatch on the action. It yields
    [resp] and [send_resp]. *)
Definition dispatch (req : Request) : M (pyval * bool) :=
  if String.eqb (req_action req) ACTION_FLAG then
    resp <- handle_flag_request (req_info req) (req_param req) ;;
    ret (resp, true)
  else if String.eqb (req_action req) ACTION_LOAD then
    resp <- handle_load_request (req_info req) (req_param req) ;;
    ret (resp, true)
  else if String.eqb (req_action req) ACTION_STORE then
    handle_store_request (req_info req) (req_param req) ;;;
    ret (PNone, true)
  else if String.eqb (req_action req) ACTION_RESULT then
    handle_result_request (req_info req) (req_param req) ;;;
    ret (PNone, true)
  else
    logging ERROR
      "Unknown action received from Checker Script for team %d in tick %d: %s"
      [PInt (info_team (req_info req)); PInt (info_tick (req_info req));
       PStr (req_action req)] ;;;
    supervisor.terminate_runner (req_runner_id req) ;;;
    ret (PNone, false).

(** The first half of [step] (up to the reply): take one request off the
    Supervisor's queue and service it. Returns [req is not None]. *)
Definition step_request : M bool :=
  req <- supervisor.get_request ;;
  match req with
  | Some req =>
      try_except_else
        (dispatch req)
        (fun _ =>
           logging EXCEPTION
             "Checker Script communication error for team %d in tick %d:"
             [PInt (info_team (req_info req)); PInt (info_tick (req_info req))] ;;;
           supervisor.terminate_runner (req_runner_id req))
        (fun '(resp, send_resp) =>
           if send_resp : bool then supervisor.send (req_send req) resp else ret tt) ;;;
      ret true
  | None => ret false
  end.

(** The [while] loop of [step]: launch new tasks and catch up missed
    intervals. [fuel] bounds the number of iterations. *)
Fixpoint launch_loop (fuel : nat) : M unit :=
  match fuel with
  | O => lift OutOfFuel
  | S fuel' =>
      now <- get_monotonic_time ;;
      last <- gets last_launch ;;
      cfg <- gets config ;;
      if Qle_bool (interval cfg) (now - last)
      then
        modify (fun s => set_last_launch (last_launch s + interval (config s))%Q s) ;;;
        launch_tasks ;;;
        launch_loop fuel'
      else ret tt
  end.

(** [step]. *)
Definition step (fuel : nat) : M bool :=
  handled <- step_request ;;
  stopping <- gets shutting_down ;;
  (if negb stopping then launch_loop fuel else ret tt) ;;;
  ret handled.

End MasterLoop.

(** ** Construction, shutdown and the main loop *)

(** [control_info] and the service row, as [__init__] reads them. *)
Record ControlInfo : Type := mkControlInfo {
  control_tick_duration : Z;
  control_valid_ticks : Z
}.

Record ServiceAttributes : Type := mkServiceAttributes {
  attr_id : Z;
  attr_name : string
}.

(** The arguments of [MasterLoop(...)] that end up in its fields. *)
Record MasterArgs : Type := mkMasterArgs {
  arg_service_slug : string;
  arg_checker_script : string;
  arg_sudo_user : option string;
  arg_max_check_duration : Q;
  arg_checker_count : Z;
  arg_interval : Q;
  arg_ip_pattern : string;
  arg_flag_secret : string
}.

(** What exists before a [MasterLoop] does: the two databases and the
    clocks. *)
Record Environment : Type := mkEnvironment {
  (* Modelled from the spec: get_control_info() returns the timing parameters
     or fails with a data-validity error *)
  env_control_info : result ControlInfo;
  (* Modelled from the spec: get_service_attributes(slug) *)
  env_service_attributes : string -> result ServiceAttributes;
  env_current_tick : Z;
  env_task_count : Z;
  env_backlog : list Task;
  env_state : gmap (Z * Z * string) pyval;
  env_monotonic : nat -> Q;
  env_monotonic_reads : nat;
  env_utcnow : Q
}.

(** [MasterLoop.__init__]: the fields from the arguments and from the two
    database reads, a fresh [RunnerSupervisor], and [last_launch] one
    interval before the clock's reading. *)
Definition MasterLoop_init (env : Environment) (args : MasterArgs) : result State :=
  match env_control_info env with
  | Err e => Err e
  | Ok control_info =>
      match env_service_attributes env (arg_service_slug args) with
      | Err e => Err e
      | Ok service =>
          Ok {| config :=
                  {| checker_script := arg_checker_script args;
                     sudo_user := arg_sudo_user args;
                     max_check_duration := arg_max_check_duration args;
                     checker_count := arg_checker_count args;
                     interval := arg_interval args;
                     ip_pattern := arg_ip_pattern args;
                     flag_secret := arg_flag_secret args;
                     tick_duration := inject_Z (control_tick_duration control_info);
                     flag_valid_ticks := control_valid_ticks control_info;
                     service_id := attr_id service;
                     service_name := attr_name service |};
                known_tick := -1;
                last_launch :=
                  (env_monotonic env (env_monotonic_reads env) - arg_interval args)%Q;
                tasks_per_launch := None;
                shutting_down := false;
                db_current_tick := env_current_tick env;
                db_task_count := env_task_count env;
                db_backlog := env_backlog env;
                db_state := env_state env;
                sup_queue := [];
                sup_processes := ∅;
                sup_next_id := 0;
                monotonic := env_monotonic env;
                monotonic_reads := S (env_monotonic_reads env);
                utcnow := env_utcnow env |}
      end
  end.

Definition set_shutting_down (v : bool) (s : State) : State :=
  mkState (config s) (known_tick s) (last_launch s) (tasks_per_launch s) v
    (db_current_tick s) (db_task_count s) (db_backlog s) (db_state s)
    (sup_queue s) (sup_processes s) (sup_next_id s)
    (monotonic s) (monotonic_reads s) (utcnow s).

(** [get_running_script_count]: [len(self.supervisor.processes)]. *)
Definition get_running_script_count : M Z :=
  gets (fun s => Z.of_nat (size (sup_processes s))).

(** [sigterm_handler] of [main]. *)
Definition sigterm_handler : M unit :=
  count <- get_running_script_count ;;
  logging INFO "Shutting down, waiting for %d Checker Scripts to finish" [PInt count] ;;;
  modify (set_shutting_down true).

(** [os.EX_OK]. *)
Definition EX_OK : Z := 0.

Section MainLoop.

Context `{Runtime}.

(** The last loop of [main]: step until shut down with no Checker Script
    left, logging whatever a step raises. [fuel] bounds the iterations of
    this loop, [step_fuel] those of each step's launch loop. The protected
    suite yields whether it reached [break]. *)
Fixpoint main_loop (fuel step_fuel : nat) : M Z :=
  match fuel with
  | O => lift OutOfFuel
  | S fuel' =>
      leave <- try_except_else
        (step step_fuel ;;;
         stopping <- gets shutting_down ;;
         if stopping : bool
         then count <- get_running_script_count ;; ret (count =? 0)
         else ret false)
        (fun _ => logging EXCEPTION "Error in main loop:" [] ;;; ret false)
        (fun leave => ret leave) ;;
      if leave : bool then ret EX_OK else main_loop fuel' step_fuel
  end.

End MainLoop.

(** ** The start of [main] *)

(** [os.EX_USAGE]. *)
Definition EX_USAGE : Z := 64.

(** The parsed arguments that [main] inspects before it connects to the
    databases. *)
Record MainArgs : Type := mkMainArgs {
  main_interval : Q;
  main_journald : bool;
  main_gelf_server : option string
}.

(** [logging_params]: [{'journald': True}] and [{'gelf': {'host': ...,
    'port': ...}}], each present or not. *)
Record LoggingParams : Type := mkLoggingParams {
  log_journald : bool;
  log_gelf : option (string * Z)
}.

Inductive Startup : Type :=
| Exit (code : Z)
| Proceed (logging_params : LoggingParams).

(** [s.rsplit(sep, 1)] as a pair: the text before and after the last
    separator, [None] when there is no separator (the list then has one
    element only). *)
Fixpoint rsplit1 (sep : ascii) (s : string) : option (string * string) :=
  match s with
  | EmptyString => None
  | String c rest =>
      match rsplit1 sep rest with
      | Some (before, after) => Some (String c before, after)
      | None => if Ascii.eqb c sep then Some (EmptyString, rest) else None
      end
  end.

(** The message for a malformed [--gelf-server]; the host and port pattern
    stands between double quotes (character 34). *)
Definition gelf_usage : string :=
  "GELF server needs to be specified as " +:+
  String (Ascii.ascii_of_nat 34) "<host>:<port>" +:+
  String (Ascii.ascii_of_nat 34) EmptyString.

(** The checks of [main] between the parsing of the arguments and the
    database connections: the lower bound of the interval and the logging
    parameters. Whether [systemd.journal] and [graypy] can be imported is
    given. Returns the exit code or the logging parameters, and what was
    logged. *)
Definition main_check_args `{Runtime} (args : MainArgs)
    (systemd_importable graypy_importable : bool) : Startup * list Event :=
  if negb (Qle_bool 3 (main_interval args))
  then (Exit EX_USAGE, [EvLog ERROR "`--interval` must be at least 3 seconds" []])
  else if main_journald args && negb systemd_importable
  then (Exit EX_USAGE, [EvLog ERROR "systemd module is required for journald logging" []])
  else
    match main_gelf_server args with
    | None => (Proceed (mkLoggingParams (main_journald args) None), [])
    | Some server =>
        if negb graypy_importable
        then (Exit EX_USAGE, [EvLog ERROR "graypy module is required for GELF logging" []])
        else
          match rsplit1 ":" server with
          | None => (Exit EX_USAGE, [EvLog ERROR gelf_usage []])
          | Some (gelf_host, gelf_port) =>
              match int_of_str gelf_port with
              | None => (Exit EX_USAGE, [EvLog ERROR gelf_usage []])
              | Some port =>
                  (Proceed (mkLoggingParams (main_journald args) (Some (gelf_host, port))),
                   [])
              end
          end
    end.

(** [DBDataError] of [ctf_gameserver.lib.exceptions]. *)
Definition DBDataError : exn := OtherError "DBDataError".

Definition is_DBDataError (e : exn) : bool :=
  match e with
  | OtherError name => String.eqb name "DBDataError"
  | _ => false
  end.

(** The loop of [main] that constructs the [MasterLoop]: after a
    [DBDataError] (logged as a warning) the construction is tried again
    after a sleep; [envs] gives the environment at each attempt. Any other
    exception leaves the loop. Returns the outcome and the number of
    warnings. *)
Fixpoint construct_master_loop (fuel : nat) (envs : nat -> Environment)
    (attempt : nat) (args : MasterArgs) : outcome State * nat :=
  match fuel with
  | O => (OutOfFuel, 0%nat)
  | S fuel' =>
      match MasterLoop_init (envs attempt) args with
      | Ok master_loop => (Normal master_loop, 0%nat)
      | Err e =>
          if is_DBDataError e
          then
            match construct_master_loop fuel' envs (S attempt) args with
            | (o, warnings) => (o, S warnings)
            end
          else (Raise e, 0%nat)
      end
  end.

(** ** A concrete runtime and concrete states *)

Module Demo.

(** A decimal reader standing for [int] on text. *)
Fixpoint digits_value (acc : Z) (s : string) : option Z :=
  match s with
  | EmptyString => Some acc
  | String c rest =>
      let n := Z.of_nat (Ascii.nat_of_ascii c) in
      if (48 <=? n) && (n <=? 57)
      then digits_value (10 * acc + (n - 48)) rest
      else None
  end.

Definition parse_int (s : string) : option Z :=
  match s with
  | EmptyString => None
  | String "-"%char (String _ _ as ds) => Z.opp <$> digits_value 0 ds
  | String _ _ => digits_value 0 s
  end.

(** A runtime whose decoder accepts only the empty text, whose result
    codes are 0 to 5, and whose flags spell out team and payload. *)
Definition runtime : Runtime := {|
  b64decode v :=
    match v with
    | PStr "" => Ok []
    | PStr _ => Err (OtherError "binascii.Error")
    | _ => Err TypeError
    end;
  b64decode_empty := eq_refl;
  int_of_str := parse_int;
  check_result_known z := (0 <=? z) && (z <=? 5);
  generate team service secret payload expiry :=
    Ok ("FLAG_" +:+ pretty team +:+
        match payload with Some _ => "_P" | None => "" end);
  percent_format pattern team := pattern +:+ pretty team
|}.

Definition cfg (mcd : Q) (count : Z) (ival : Q) : Config :=
  {| checker_script := "checker.py"; sudo_user := None;
     max_check_duration := mcd; checker_count := count; interval := ival;
     ip_pattern := "10.0.0."; flag_secret := "c2VjcmV0";
     tick_duration := 60; flag_valid_ticks := 5;
     service_id := 1; service_name := "web" |}.

Definition info7 : TaskInfo := mkTaskInfo "web" 7 3.
Definition info8 : TaskInfo := mkTaskInfo "web" 8 3.

(** A system in tick 3 with five teams to check, two live Runners, the
    given request queue, and a monotonic clock standing at [now]. *)
Definition state (c : Config) (known : Z) (stopping : bool)
    (queue : list Request) (now : Q) : State :=
  {| config := c; known_tick := known; last_launch := 0;
     tasks_per_launch := Some 1; shutting_down := stopping;
     db_current_tick := 3; db_task_count := 5;
     db_backlog := [mkTask 1 3; mkTask 2 3; mkTask 3 3; mkTask 4 3; mkTask 5 3];
     db_state := ∅;
     sup_queue := queue;
     sup_processes := <[7%nat := info7]> (<[8%nat := info8]> ∅);
     sup_next_id := 9;
     monotonic := fun _ => now; monotonic_reads := 0; utcnow := 1000 |}.

Definition request (action : string) (param : pyval) : Request :=
  mkRequest 7 action info7 param 70.

End Demo.

(** ** Specification vocabulary *)

(** [n] is the ceiling of [a / b], for a positive [b]: the least integer
    whose multiple of [b] reaches [a]. *)
Definition is_ceil_div (n a b : Z) : Prop := (n - 1) * b < a <= n * b.

(** [launch_timeframe] and [intervals_per_timeframe] as the specification
    writes them. *)
Definition launch_timeframe (cfg : Config) : Q :=
  (tick_duration cfg - max_check_duration cfg - tick_duration cfg / 6)%Q.

Definition intervals_per_timeframe (cfg : Config) : Z :=
  Qfloor (launch_timeframe cfg / interval cfg).


Definition too_long : exn :=
  ValueError "Maximum Checker Script duration too long for tick".

(** What [update_launch_params] computes from the configuration and the
    task count, as one expression. *)
Definition launch_params (cfg : Config) (total_tasks : Z) : result Z :=
  if checker_count cfg =? 0 then Err ZeroDivisionError
  else if Qle_bool (launch_timeframe cfg) 0 then Err too_long
  else if Qeq_bool (interval cfg) 0 then Err ZeroDivisionError
  else if intervals_per_timeframe cfg =? 0 then Err ZeroDivisionError
  else
    let local_tasks := math_ceil (inject_Z total_tasks / inject_Z (checker_count cfg)) in
    Ok (math_ceil (inject_Z local_tasks / inject_Z (intervals_per_timeframe cfg))).

(** Readings of a run's events. *)

(** The replies sent: connection and value of every [send]. *)
Definition replies (evs : list Event) : list (nat * pyval) :=
  flat_map (fun e => match e with EvSend conn resp => [(conn, resp)] | _ => [] end) evs.

(** The terminations asked of the Supervisor: [Some id] for one Runner,
    [None] for all of them. *)
Definition terminations (evs : list Event) : list (option nat) :=
  flat_map (fun e =>
    match e with
    | EvTerminateRunner id => [Some id]
    | EvTerminateRunners => [None]
    | _ => []
    end) evs.

(** The results persisted through [commit_result]. *)
Definition commits (evs : list Event) : list (Z * Z * Z * Z) :=
  flat_map (fun e =>
    match e with
    | EvCommitResult service team tick result => [(service, team, tick, result)]
    | _ => []
    end) evs.

(** The number of launch passes: every pass starts with its one call of
    [get_current_tick], which nothing else calls. *)
Definition launch_passes (evs : list Event) : nat :=
  length (flat_map (fun e => match e with EvGetCurrentTick => [tt] | _ => [] end) evs).

(** The calls a request handler makes: logging and database access. *)
Definition handler_event (e : Event) : bool :=
  match e with
  | EvLog _ _ _ | EvLoadState _ _ _ | EvStoreState _ _ _ _
  | EvCommitResult _ _ _ _ => true
  | _ => false
  end.

(** A computation that neither diverges, nor touches anything but the state
    database, nor calls anything but logging and the databases. *)
Definition handler_like {A} (m : M A) : Prop :=
  forall s o s' evs, m s = (o, s', evs) ->
    o <> OutOfFuel /\ s' = set_db_state (db_state s') s /\ Forall handler_event evs.

(** The request's action is none of the four recognized ones. *)
Definition unknown_action (req : Request) : Prop :=
  req_action req <> ACTION_FLAG /\ req_action req <> ACTION_LOAD /\
  req_action req <> ACTION_STORE /\ req_action req <> ACTION_RESULT.


(** The Runners started by a launch pass for [tasks], and the calls made
    for them. *)
Definition start_events `{Runtime} (cfg : Config) (tick : Z) (tasks : list Task) : list Event :=
  flat_map (fun task =>
    [EvLog INFO "Starting Checker Script for team %d in tick %d"
       [PInt (task_team_id task); PInt tick];
     EvStartRunner (runner_args cfg task)
       (mkTaskInfo (service_name cfg) (task_team_id task) tick)]) tasks.

Definition started (name : string) (tick : Z) (tasks : list Task) (s : State) : State :=
  fold_left (fun s task =>
    set_sup_processes
      (<[sup_next_id s := mkTaskInfo name (task_team_id task) tick]> (sup_processes s))
      (S (sup_next_id s)) s) tasks s.

(** The fields that a launch pass may change: those of the Supervisor's
    registry, the backlog, [known_tick] and [tasks_per_launch]. *)
Definition same_cadence (s s' : State) : Prop :=
  config s' = config s /\ last_launch s' = last_launch s /\
  shutting_down s' = shutting_down s /\
  db_current_tick s' = db_current_tick s /\ db_task_count s' = db_task_count s /\
  monotonic s' = monotonic s /\ monotonic_reads s' = monotonic_reads s.


(** The request's action is one of the four recognized ones. *)
Definition known_action (req : Request) : Prop :=
  req_action req = ACTION_FLAG \/ req_action req = ACTION_LOAD \/
  req_action req = ACTION_STORE \/ req_action req = ACTION_RESULT.

(** The state after the Supervisor has forcibly terminated one Runner. *)
Definition without_runner (runner_id : nat) (s : State) : State :=
  set_sup_processes (delete runner_id (sup_processes s)) (sup_next_id s) s.

Definition communication_error_log (req : Request) : Event :=
  EvLog EXCEPTION "Checker Script communication error for team %d in tick %d:"
    [PInt (info_team (req_info req)); PInt (info_tick (req_info req))].

Definition unknown_action_log (req : Request) : Event :=
  EvLog ERROR "Unknown action received from Checker Script for team %d in tick %d: %s"
    [PInt (info_team (req_info req)); PInt (info_tick (req_info req));
     PStr (req_action req)].

(** The second half of a launch pass from [s] in tick [db_current_tick s]:
    fetch at most [tasks_per_launch] tasks and start a Runner for each. *)
Definition fetch_and_start `{Runtime} (s : State) : State * list Event :=
  let n := match tasks_per_launch s with
           | Some l => Z.to_nat l
           | None => length (db_backlog s)
           end in
  let tasks := take n (db_backlog s) in
  (started (service_name (config s)) (db_current_tick s) tasks
     (set_db_backlog (drop n (db_backlog s)) s),
   EvGetNewTasks (service_id (config s)) (tasks_per_launch s)
     :: start_events (config s) (db_current_tick s) tasks).

(** The state in which a launch pass that saw a new tick fetches tasks:
    all Runners terminated, [tasks_per_launch] recomputed to [n], the tick
    known. *)
Definition enter_tick (n : Z) (s : State) : State :=
  set_known_tick (db_current_tick s)
    (set_tasks_per_launch (Some n) (set_sup_processes ∅ (sup_next_id s) s)).

(** Whether a request is pending in the Supervisor's queue. *)
Definition pending (s : State) : bool :=
  match sup_queue s with
  | [] => false
  | _ :: _ => true
  end.

(** Further readings of a run's events. *)

(** The Runners started: argument vector and task metadata of every
    [start_runner]. *)
Definition starts (evs : list Event) : list (list string * TaskInfo) :=
  flat_map (fun e => match e with EvStartRunner args info => [(args, info)] | _ => [] end) evs.

(** The limits passed to [get_new_tasks]. *)
Definition fetch_limits (evs : list Event) : list (option Z) :=
  flat_map (fun e => match e with EvGetNewTasks _ limit => [limit] | _ => [] end) evs.

(** The number of polls of the Supervisor's request queue. *)
Definition polls (evs : list Event) : nat :=
  length (flat_map (fun e => match e with EvGetRequest => [tt] | _ => [] end) evs).

(** [tasks_per_launch] has been computed whenever a tick is known. *)
Definition params_ready (s : State) : Prop :=
  0 <= known_tick s -> is_Some (tasks_per_launch s).

(** The Runner a launch pass in tick [tick] starts for [task]. *)
Definition runner_for `{Runtime} (cfg : Config) (tick : Z) (task : Task)
    : list string * TaskInfo :=
  (runner_args cfg task, mkTaskInfo (service_name cfg) (task_team_id task) tick).

(** The calls a launch pass makes. *)
Definition launch_event (e : Event) : bool :=
  match e with
  | EvGetCurrentTick | EvTerminateRunners | EvGetTaskCount _
  | EvGetNewTasks _ _ | EvStartRunner _ _ | EvLog _ _ _ => true
  | _ => false
  end.

(** What a launch pass leaves alone: the configuration, the cadence, the
    shutdown flag, the request queue, the state database, the tick clock. *)
Definition launch_frame (s s' : State) : Prop :=
  config s' = config s /\ shutting_down s' = shutting_down s /\
  sup_queue s' = sup_queue s /\ db_state s' = db_state s /\
  db_current_tick s' = db_current_tick s /\ db_task_count s' = db_task_count s /\
  monotonic s' = monotonic s /\ utcnow s' = utcnow s.

(** The number of tasks a pass from [s] fetches. *)
Definition fetch_count (s : State) : nat :=
  match tasks_per_launch s with
  | Some l => Z.to_nat l
  | None => length (db_backlog s)
  end.

(** Concrete inputs for construction and startup. *)
Module DemoMain.

Definition env : Environment :=
  {| env_control_info := Ok (mkControlInfo 60 5);
     env_service_attributes := fun _ => Ok (mkServiceAttributes 1 "web");
     env_current_tick := 3; env_task_count := 5;
     env_backlog := [mkTask 1 3; mkTask 2 3];
     env_state := ∅;
     env_monotonic := fun _ => 10%Q; env_monotonic_reads := 0; env_utcnow := 1000 |}.

(** The same databases before the control parameters are valid. *)
Definition env_unready : Environment :=
  {| env_control_info := Err DBDataError;
     env_service_attributes := fun _ => Ok (mkServiceAttributes 1 "web");
     env_current_tick := -1; env_task_count := 0;
     env_backlog := [];
     env_state := ∅;
     env_monotonic := fun _ => 10%Q; env_monotonic_reads := 0; env_utcnow := 1000 |}.

Definition args : MasterArgs :=
  {| arg_service_slug := "web"; arg_checker_script := "checker.py";
     arg_sudo_user := None; arg_max_check_duration := 10; arg_checker_count := 1;
     arg_interval := 3; arg_ip_pattern := "10.0.0."; arg_flag_secret := "c2VjcmV0" |}.

Definition main_args (server : string) : MainArgs :=
  {| main_interval := 3; main_journald := false; main_gelf_server := Some server |}.

End DemoMain.

(** * Properties *)

(** ** Rounding of quotients *)

Lemma inject_Z_eq0 (z : Z) : Qeq_bool (inject_Z z) 0 = (z =? 0).
Proof.
  destruct (Z.eqb_spec z 0) as [-> | Hz]; [reflexivity |].
  apply not_true_is_false. intros HQ. apply Qeq_bool_eq in HQ.
  apply Hz. apply inject_Z_injective. exact HQ.
Qed.



Lemma is_ceil_div_unique (n m a b : Z) :
  0 < b -> is_ceil_div n a b -> is_ceil_div m a b -> n = m.
Proof. unfold is_ceil_div. intros. nia. Qed.

Lemma math_floor_nonneg (x y : Q) :
  (0 < x)%Q -> (0 < y)%Q -> 0 <= math_floor (x / y).
Proof.
  intros Hx Hy. unfold math_floor.
  change 0 with (Qfloor 0). apply Qfloor_resp_le.
  apply Qle_shift_div_l; [exact Hy | lra].
Qed.

Lemma math_floor_small (x y : Q) :
  (0 < x)%Q -> (x < y)%Q -> math_floor (x / y) = 0.
Proof.
  intros Hx Hxy. assert (Hy : (0 < y)%Q) by lra.
  pose proof (math_floor_nonneg x y Hx Hy) as Hlo.
  assert (Hhi : math_floor (x / y) < 1); [| lia].
  unfold math_floor. rewrite Zlt_Qlt.
  apply Qle_lt_trans with (x / y)%Q; [apply Qfloor_le |].
  apply Qlt_shift_div_r; [exact Hy | change (inject_Z 1) with 1%Q; lra].
Qed.

(** ** The launch-rate computation *)

Lemma update_launch_params_run (s : State) :
  update_launch_params s =
  match launch_params (config s) (db_task_count s) with
  | Ok n => (Normal tt, set_tasks_per_launch (Some n) s,
             [EvGetTaskCount (service_id (config s))])
  | Err e => (Raise e, s, [EvGetTaskCount (service_id (config s))])
  end.
Proof.
  unfold update_launch_params, launch_params, intervals_per_timeframe,
    launch_timeframe, bind, gets, database.get_task_count, truediv.
  cbn. rewrite inject_Z_eq0.
  destruct (checker_count (config s) =? 0); cbn; [reflexivity |].
  match goal with |- context [Qle_bool ?x ?y] => destruct (Qle_bool x y) end;
    cbn; [reflexivity |].
  destruct (Qeq_bool (interval (config s)) 0%Q); cbn; [reflexivity |].
  rewrite inject_Z_eq0. unfold math_floor.
  match goal with |- context [?z =? 0] => destruct (z =? 0) end; cbn; reflexivity.
Qed.





(** C3, as amended: when [max_check_duration + tick_duration/6 >=
    tick_duration] and [checker_count] is not zero, [update_launch_params]
    raises the configuration error whatever the interval is, and leaves
    [tasks_per_launch] (and the rest of the state) as it was. *)
Theorem update_launch_params_infeasible (s : State) :
  checker_count (config s) <> 0 ->
  (tick_duration (config s) <=
   max_check_duration (config s) + tick_duration (config s) / 6)%Q ->
  update_launch_params s =
  (Raise too_long, s, [EvGetTaskCount (service_id (config s))]).
Proof.
  intros Hcount Hlong.
  rewrite update_launch_params_run. unfold launch_params.
  destruct (Z.eqb_spec (checker_count (config s)) 0) as [| _]; [contradiction |].
  assert (Htf : Qle_bool (launch_timeframe (config s)) 0 = true).
  { apply Qle_bool_iff. unfold launch_timeframe. lra. }
  rewrite Htf. reflexivity.
Qed.

Lemma update_launch_params_infeasible_witness :
  let s := Demo.state (Demo.cfg 50 1 3) (-1) false [] 10 in
  update_launch_params s = (Raise too_long, s, [EvGetTaskCount 1]).
Proof.
  cbv zeta. apply update_launch_params_infeasible.
  - vm_compute. discriminate.
  - vm_compute. discriminate.
Defined.

(** C3 as stated fails for [checker_count = 0]: the division on the line
    before the feasibility test raises [ZeroDivisionError], so no
    [ValueError] is raised although the timing is infeasible. *)
Lemma update_launch_params_zero_checker_count :
  let s := Demo.state (Demo.cfg 60 0 3) (-1) false [] 10 in
  (tick_duration (config s) <=
   max_check_duration (config s) + tick_duration (config s) / 6)%Q /\
  update_launch_params s = (Raise ZeroDivisionError, s, [EvGetTaskCount 1]) /\
  ~ exists msg s' evs, update_launch_params s = (Raise (ValueError msg), s', evs).
Proof.
  cbv zeta. split; [vm_compute; discriminate |].
  assert (Hrun : update_launch_params (Demo.state (Demo.cfg 60 0 3) (-1) false [] 10) =
                 (Raise ZeroDivisionError, Demo.state (Demo.cfg 60 0 3) (-1) false [] 10,
                  [EvGetTaskCount 1])) by (vm_compute; reflexivity).
  split; [exact Hrun |].
  intros (msg & s' & evs & Hbad). rewrite Hrun in Hbad. discriminate.
Qed.

(** C10: whenever the launch timeframe is positive (the feasibility test
    passes) but shorter than the interval, [intervals_per_timeframe] is 0 and
    [update_launch_params] raises [ZeroDivisionError], not the configuration
    error. *)
Theorem update_launch_params_short_timeframe (s : State) :
  (0 < launch_timeframe (config s))%Q ->
  (launch_timeframe (config s) < interval (config s))%Q ->
  Qle_bool (launch_timeframe (config s)) 0 = false /\
  intervals_per_timeframe (config s) = 0 /\
  update_launch_params s =
  (Raise ZeroDivisionError, s, [EvGetTaskCount (service_id (config s))]).
Proof.
  intros Hpos Hshort.
  assert (Htf : Qle_bool (launch_timeframe (config s)) 0 = false).
  { apply not_true_is_false. intros Hle. apply Qle_bool_iff in Hle. lra. }
  assert (Hn : intervals_per_timeframe (config s) = 0)
    by (apply math_floor_small; assumption).
  repeat split; try assumption.
  rewrite update_launch_params_run. unfold launch_params.
  rewrite Htf, Hn.
  destruct (checker_count (config s) =? 0); [reflexivity |].
  destruct (Qeq_bool (interval (config s)) 0); reflexivity.
Qed.

Lemma update_launch_params_short_timeframe_witness :
  let s := Demo.state (Demo.cfg 49 1 3) (-1) false [] 10 in
  Qle_bool (launch_timeframe (config s)) 0 = false /\
  intervals_per_timeframe (config s) = 0 /\
  update_launch_params s = (Raise ZeroDivisionError, s, [EvGetTaskCount 1]).
Proof.
  cbv zeta. apply update_launch_params_short_timeframe.
  - reflexivity.
  - reflexivity.
Defined.

(** ** Request handlers only log and access the databases *)

Create HintDb handler.

Section HandlerFrame.

Context `{Runtime}.

Lemma handler_like_ret {A} (a : A) : handler_like (ret a).
Proof. intros s o s' evs [= <- <- <-]. by destruct s. Qed.

Lemma handler_like_raise {A} (e : exn) : handler_like (@raise A e).
Proof. intros s o s' evs [= <- <- <-]. by destruct s. Qed.

Lemma handler_like_lift_result {A} (r : result A) : handler_like (lift_result r).
Proof. destruct r; [apply handler_like_ret | apply handler_like_raise]. Qed.

Lemma handler_like_gets {A} (f : State -> A) : handler_like (gets f).
Proof. intros s o s' evs [= <- <- <-]. by destruct s. Qed.

Lemma handler_like_logging level msg args : handler_like (logging level msg args).
Proof.
  intros s o s' evs [= <- <- <-]. destruct s.
  repeat split; [done | by repeat constructor].
Qed.

Lemma handler_like_bind {A B} (m : M A) (k : A -> M B) :
  handler_like m -> (forall a, handler_like (k a)) -> handler_like (bind m k).
Proof.
  intros Hm Hk s o s' evs. unfold bind.
  destruct (m s) as [[o1 s1] evs1] eqn:Em.
  destruct (Hm _ _ _ _ Em) as (Ho1 & Hs1 & Hevs1).
  destruct o1 as [a | e |]; [| intros [= <- <- <-]; done | done].
  destruct (k a s1) as [[o2 s2] evs2] eqn:Ek.
  destruct (Hk a _ _ _ _ Ek) as (Ho2 & Hs2 & Hevs2).
  intros [= <- <- <-]. repeat split; [done | | by apply Forall_app].
  rewrite Hs2, Hs1. reflexivity.
Qed.

Lemma handler_like_try_except {A} (body : M A) catches (handler : M A) :
  handler_like body -> handler_like handler ->
  handler_like (try_except body catches handler).
Proof.
  intros Hb Hh s o s' evs. unfold try_except.
  destruct (body s) as [[o1 s1] evs1] eqn:Eb.
  destruct (Hb _ _ _ _ Eb) as (Ho1 & Hs1 & Hevs1).
  destruct o1 as [a | e |]; [intros [= <- <- <-]; done | | done].
  destruct (catches e); [| intros [= <- <- <-]; done].
  destruct (handler s1) as [[o2 s2] evs2] eqn:Eh.
  destruct (Hh _ _ _ _ Eh) as (Ho2 & Hs2 & Hevs2).
  intros [= <- <- <-]. repeat split; [done | | by apply Forall_app].
  rewrite Hs2, Hs1. reflexivity.
Qed.

Lemma handler_like_load_state service team key :
  handler_like (database.load_state service team key).
Proof.
  intros s o s' evs. unfold database.load_state.
  destruct key; intros [= <- <- <-]; destruct s;
    (repeat split; [done | by repeat constructor]).
Qed.

Lemma handler_like_store_state service team key data :
  handler_like (database.store_state service team key data).
Proof.
  intros s o s' evs. unfold database.store_state.
  destruct key; intros [= <- <- <-]; destruct s;
    (repeat split; [done | by repeat constructor]).
Qed.

Lemma handler_like_commit_result service team tick value :
  handler_like (database.commit_result service team tick value).
Proof.
  intros s o s' evs [= <- <- <-]. destruct s.
  repeat split; [done | by repeat constructor].
Qed.

#[local] Hint Resolve handler_like_ret handler_like_raise handler_like_lift_result
  handler_like_gets handler_like_logging handler_like_load_state
  handler_like_store_state handler_like_commit_result : handler.

Ltac handler_like :=
  repeat first
    [ apply handler_like_bind; [| intros ?]
    | apply handler_like_try_except
    | progress auto with handler
    | match goal with |- handler_like (match ?x with _ => _ end) => destruct x end ].

Lemma handle_flag_request_handler_like info params :
  handler_like (handle_flag_request info params).
Proof. unfold handle_flag_request. handler_like. Qed.

Lemma handle_load_request_handler_like info param :
  handler_like (handle_load_request info param).
Proof. unfold handle_load_request. handler_like. Qed.

Lemma handle_store_request_handler_like info params :
  handler_like (handle_store_request info params).
Proof. unfold handle_store_request. handler_like. Qed.

Lemma handle_result_request_handler_like info param :
  handler_like (handle_result_request info param).
Proof. unfold handle_result_request. handler_like. Qed.

End HandlerFrame.

(** ** Servicing one request *)

Lemma handler_events_quiet (evs : list Event) :
  Forall handler_event evs ->
  replies evs = [] /\ terminations evs = [] /\ launch_passes evs = 0%nat.
Proof.
  unfold launch_passes.
  induction 1 as [| e evs He _ (IHr & IHt & IHl)]; [done |].
  destruct e; try done; cbn; rewrite ?IHr, ?IHt; auto.
Qed.

Section StepRequest.

Context `{Runtime}.

Lemma step_request_run (s : State) (r : Request) (q : list Request) :
  sup_queue s = r :: q ->
  step_request s =
  match dispatch r (set_sup_queue q s) with
  | (Normal (resp, send_resp), s2, evs) =>
      (Normal true, s2,
       EvGetRequest :: evs ++
         (if send_resp : bool then [EvSend (req_send r) resp] else []))
  | (Raise e, s2, evs) =>
      (Normal true, without_runner (req_runner_id r) s2,
       EvGetRequest :: evs ++
         [communication_error_log r; EvTerminateRunner (req_runner_id r)])
  | (OutOfFuel, s2, evs) => (OutOfFuel, s2, EvGetRequest :: evs)
  end.
Proof.
  intros Hq. unfold step_request, bind, supervisor.get_request, try_except_else.
  rewrite Hq.
  destruct (dispatch r (set_sup_queue q s)) as [[[[resp send_resp] | e |] s2] evs];
    [destruct send_resp | |]; cbn; rewrite ?app_nil_r; reflexivity.
Qed.

Lemma step_request_idle (s : State) :
  sup_queue s = [] -> step_request s = (Normal false, s, [EvGetRequest]).
Proof.
  intros Hq. unfold step_request, bind, supervisor.get_request.
  rewrite Hq. reflexivity.
Qed.

Lemma dispatch_unknown (s : State) (r : Request) :
  unknown_action r ->
  dispatch r s =
  (Normal (PNone, false), without_runner (req_runner_id r) s,
   [unknown_action_log r; EvTerminateRunner (req_runner_id r)]).
Proof.
  intros (Hf & Hl & Hs & Hr). unfold dispatch.
  apply String.eqb_neq in Hf, Hl, Hs, Hr. rewrite Hf, Hl, Hs, Hr.
  reflexivity.
Qed.

Lemma known_or_unknown (r : Request) : known_action r \/ unknown_action r.
Proof.
  unfold known_action, unknown_action.
  destruct (String.eqb_spec (req_action r) ACTION_FLAG); [auto |].
  destruct (String.eqb_spec (req_action r) ACTION_LOAD); [auto |].
  destruct (String.eqb_spec (req_action r) ACTION_STORE); [auto |].
  destruct (String.eqb_spec (req_action r) ACTION_RESULT); auto.
Qed.

(** The four branches of the dispatch. *)
Lemma dispatch_known (r : Request) :
  known_action r ->
  dispatch r =
  if String.eqb (req_action r) ACTION_FLAG then
    bind (handle_flag_request (req_info r) (req_param r)) (fun resp => ret (resp, true))
  else if String.eqb (req_action r) ACTION_LOAD then
    bind (handle_load_request (req_info r) (req_param r)) (fun resp => ret (resp, true))
  else if String.eqb (req_action r) ACTION_STORE then
    bind (handle_store_request (req_info r) (req_param r)) (fun _ => ret (PNone, true))
  else
    bind (handle_result_request (req_info r) (req_param r)) (fun _ => ret (PNone, true)).
Proof.
  intros Hk. unfold dispatch.
  destruct Hk as [Hk | [Hk | [Hk | Hk]]]; rewrite Hk; reflexivity.
Qed.

Lemma dispatch_known_handler_like (r : Request) :
  known_action r -> handler_like (dispatch r).
Proof.
  intros Hk. rewrite (dispatch_known r Hk).
  repeat match goal with |- handler_like (if ?b then _ else _) => destruct b end;
    apply handler_like_bind;
    auto using handle_flag_request_handler_like, handle_load_request_handler_like,
      handle_store_request_handler_like, handle_result_request_handler_like,
      @handler_like_ret.
Qed.

Lemma dispatch_known_sends (r : Request) s resp send_resp s' evs :
  known_action r ->
  dispatch r s = (Normal (resp, send_resp), s', evs) -> send_resp = true.
Proof.
  intros Hk. rewrite (dispatch_known r Hk). unfold bind, ret.
  repeat case_match; congruence.
Qed.

End StepRequest.

Section Protocol.

Context `{Runtime}.

(** C4: a request with an unrecognized action, and a request whose
    dispatch raises an exception, make [step] terminate exactly the
    Runner that sent it, through the Supervisor, and nothing is sent on
    the request's connection; the registry loses that Runner only. *)
Theorem step_request_protocol_error (s : State) (r : Request) (q : list Request) :
  sup_queue s = r :: q ->
  (unknown_action r \/
   exists e s2 evs2, dispatch r (set_sup_queue q s) = (Raise e, s2, evs2)) ->
  exists s' evs,
    step_request s = (Normal true, s', evs) /\
    replies evs = [] /\
    terminations evs = [Some (req_runner_id r)] /\
    sup_processes s' = delete (req_runner_id r) (sup_processes s) /\
    forall other, other <> req_runner_id r ->
      sup_processes s' !! other = sup_processes s !! other.
Proof.
  intros Hq Herr. rewrite (step_request_run s r q Hq).
  assert (Hunknown : unknown_action r ->
    exists s' evs,
      (Normal true, without_runner (req_runner_id r) (set_sup_queue q s),
       [EvGetRequest; unknown_action_log r; EvTerminateRunner (req_runner_id r)])
      = (Normal true, s', evs) /\
      replies evs = [] /\ terminations evs = [Some (req_runner_id r)] /\
      sup_processes s' = delete (req_runner_id r) (sup_processes s) /\
      forall other, other <> req_runner_id r ->
        sup_processes s' !! other = sup_processes s !! other).
  { intros _. eexists _, _. split; [reflexivity |]. repeat split.
    intros other Hne. cbn. by rewrite lookup_delete_ne. }
  destruct Herr as [Hu | (e & s2 & evs2 & Hraise)].
  - rewrite (dispatch_unknown _ r Hu). cbn. exact (Hunknown Hu).
  - destruct (known_or_unknown r) as [Hk | Hu].
    + rewrite Hraise.
      destruct (dispatch_known_handler_like r Hk _ _ _ _ Hraise) as (_ & Hs2 & Hevs2).
      destruct (handler_events_quiet _ Hevs2) as (Hr & Ht & _).
      assert (Hp : sup_processes s2 = sup_processes s) by (rewrite Hs2; reflexivity).
      eexists _, _. split; [reflexivity |].
      unfold replies, terminations in *. cbn.
      rewrite !flat_map_app, Hr, Ht. cbn. rewrite Hp. repeat split.
      intros other Hne. by rewrite lookup_delete_ne.
    + rewrite (dispatch_unknown _ r Hu) in Hraise. discriminate.
Qed.


Lemma flag_response (s : State) (info : TaskInfo) (params resp : pyval) s' evs :
  handle_flag_request info params s = (Normal resp, s', evs) ->
  exists payload token,
    generate (info_team info) (service_id (config s)) (flag_secret (config s)) payload
      (utcnow s + tick_duration (config s) * inject_Z (flag_valid_ticks (config s)))
    = Ok token /\ resp = PStr token.
Proof.
  unfold handle_flag_request, bind, try_except, lift_result, gets, ret, raise.
  intros Hrun. repeat case_match; simplify_eq; eauto.
Qed.

Lemma load_response (s : State) (info : TaskInfo) (param resp : pyval) s' evs :
  handle_load_request info param s = (Normal resp, s', evs) ->
  exists key,
    param = PStr key /\
    resp = default PNone (db_state s !! (service_id (config s), info_team info, key)).
Proof.
  unfold handle_load_request, bind, gets, database.load_state.
  intros Hrun. cbn in Hrun. destruct param; simplify_eq. eauto.
Qed.

(** C8: when the handler of a FLAG, LOAD, STORE or RESULT request returns,
    the step sends exactly one reply on the request's connection and
    terminates no Runner. For FLAG the reply carries the flag that
    [generate] built, for LOAD the blob found in the state database (or
    [None] for its absence); for STORE and RESULT the reply carries no
    value: it is [None]. *)
Theorem step_request_replies_once (s : State) (r : Request) (q : list Request)
    (resp : pyval) (send_resp : bool) (s2 : State) (evs2 : list Event) :
  sup_queue s = r :: q ->
  known_action r ->
  dispatch r (set_sup_queue q s) = (Normal (resp, send_resp), s2, evs2) ->
  exists evs,
    step_request s = (Normal true, s2, evs) /\
    replies evs = [(req_send r, resp)] /\
    terminations evs = [] /\
    sup_processes s2 = sup_processes s /\
    (req_action r = ACTION_FLAG ->
     exists payload token,
       generate (info_team (req_info r)) (service_id (config s))
         (flag_secret (config s)) payload
         (utcnow s + tick_duration (config s) * inject_Z (flag_valid_ticks (config s)))
       = Ok token /\ resp = PStr token) /\
    (req_action r = ACTION_LOAD ->
     exists key,
       req_param r = PStr key /\
       resp = default PNone
                (db_state s !! (service_id (config s), info_team (req_info r), key))) /\
    (req_action r = ACTION_STORE \/ req_action r = ACTION_RESULT -> resp = PNone).
Proof.
  intros Hq Hk Hrun. rewrite (step_request_run s r q Hq), Hrun.
  rewrite (dispatch_known_sends r _ _ _ _ _ Hk Hrun).
  destruct (dispatch_known_handler_like r Hk _ _ _ _ Hrun) as (_ & Hs2 & Hevs2).
  destruct (handler_events_quiet _ Hevs2) as (Hr & Ht & _).
  eexists. split; [reflexivity |].
  unfold replies, terminations in *. cbn. rewrite !flat_map_app, Hr, Ht. cbn.
  split; [reflexivity |]. split; [reflexivity |].
  split; [rewrite Hs2; reflexivity |].
  rewrite (dispatch_known r Hk) in Hrun. unfold bind, ret in Hrun.
  split; [| split].
  - intros Hact. rewrite Hact in Hrun. cbn -[handle_flag_request] in Hrun.
    destruct (handle_flag_request _ _ _) as [[[resp' | |] s1] evs1] eqn:Hflag;
      simplify_eq.
    exact (flag_response _ _ _ _ _ _ Hflag).
  - intros Hact. rewrite Hact in Hrun. cbn -[handle_load_request] in Hrun.
    destruct (handle_load_request _ _ _) as [[[resp' | |] s1] evs1] eqn:Hload;
      simplify_eq.
    exact (load_response _ _ _ _ _ _ Hload).
  - intros [Hact | Hact]; rewrite Hact in Hrun;
      cbn -[handle_store_request handle_result_request] in Hrun;
      repeat case_match; simplify_eq; reflexivity.
Qed.

(** C9: a FLAG request whose parameters hold the payload [""] and one
    whose parameters hold no payload behave identically: both call
    [generate] with an absent payload and with the expiry
    [now + tick_duration * valid_ticks], and reply with what it returns. *)
Theorem handle_flag_request_no_payload (s : State) (info : TaskInfo)
    (absent blank : gmap string pyval) :
  absent !! "payload" = None ->
  blank !! "payload" = Some (PStr "") ->
  handle_flag_request info (PDict blank) s = handle_flag_request info (PDict absent) s /\
  handle_flag_request info (PDict absent) s =
  (match generate (info_team info) (service_id (config s)) (flag_secret (config s)) None
           (utcnow s + tick_duration (config s) * inject_Z (flag_valid_ticks (config s)))
   with
   | Ok token => Normal (PStr token)
   | Err e => Raise e
   end, s, []).
Proof.
  intros Habsent Hblank.
  unfold handle_flag_request, bind, try_except, lift_result, subscript, gets.
  rewrite Habsent, Hblank. cbn. rewrite b64decode_empty. cbn.
  split; [reflexivity |].
  destruct (generate _ _ _ _ _); reflexivity.
Qed.

End Protocol.

(** ** Launch passes *)

Section LaunchPass.

Context `{Runtime}.

Lemma for_each_run {A} (xs : list A) (body : A -> M unit)
    (f : State -> A -> State) (calls : A -> list Event) (s : State) :
  (forall x s, body x s = (Normal tt, f s x, calls x)) ->
  for_each xs body s = (Normal tt, fold_left f xs s, flat_map calls xs).
Proof.
  intros Hbody. revert s.
  induction xs as [| x xs IH]; intros s; [reflexivity |].
  cbn [for_each]. unfold bind. rewrite Hbody, IH. reflexivity.
Qed.

Lemma start_runners_run (cfg : Config) (tick : Z) (tasks : list Task) (s : State) :
  for_each tasks (fun task =>
    logging INFO "Starting Checker Script for team %d in tick %d"
      [PInt (task_team_id task); PInt tick] ;;;
    supervisor.start_runner (runner_args cfg task)
      (mkTaskInfo (service_name cfg) (task_team_id task) tick)) s =
  (Normal tt, started (service_name cfg) tick tasks s, start_events cfg tick tasks).
Proof. apply for_each_run. reflexivity. Qed.

Lemma launch_tasks_run (s : State) :
  launch_tasks s =
  if db_current_tick s <? 0 then (Normal tt, s, [EvGetCurrentTick])
  else if db_current_tick s =? known_tick s then
    (Normal tt, (fetch_and_start s).1, EvGetCurrentTick :: (fetch_and_start s).2)
  else
    match launch_params (config s) (db_task_count s) with
    | Ok n =>
        (Normal tt, (fetch_and_start (enter_tick n s)).1,
         EvGetCurrentTick :: EvTerminateRunners
           :: EvGetTaskCount (service_id (config s))
           :: (fetch_and_start (enter_tick n s)).2)
    | Err e =>
        (Raise e, set_sup_processes ∅ (sup_next_id s) s,
         [EvGetCurrentTick; EvTerminateRunners; EvGetTaskCount (service_id (config s))])
    end.
Proof.
  unfold launch_tasks, fetch_and_start, enter_tick.
  unfold bind at 1 2. cbn -[for_each update_launch_params].
  destruct (db_current_tick s <? 0); [reflexivity |].
  unfold bind at 1 2. cbn -[for_each update_launch_params].
  destruct (db_current_tick s =? known_tick s); cbn -[for_each update_launch_params].
  - unfold bind. cbn -[for_each].
    erewrite for_each_run; [reflexivity | intros; reflexivity].
  - unfold bind. cbn -[for_each update_launch_params].
    rewrite update_launch_params_run. cbn -[for_each launch_params].
    destruct (launch_params (config s) (db_task_count s)) as [n | e];
      cbn -[for_each]; [| reflexivity].
    unfold bind. cbn -[for_each].
    erewrite for_each_run; [reflexivity | intros; reflexivity].
Qed.

Lemma started_frame (name : string) (tick : Z) (tasks : list Task) (s : State) :
  same_cadence s (started name tick tasks s) /\
  known_tick (started name tick tasks s) = known_tick s /\
  tasks_per_launch (started name tick tasks s) = tasks_per_launch s.
Proof.
  revert s. induction tasks as [| task tasks IH]; intros s; [by repeat split |].
  cbn. destruct (IH (set_sup_processes
    (<[sup_next_id s := mkTaskInfo name (task_team_id task) tick]> (sup_processes s))
    (S (sup_next_id s)) s)) as ((? & ? & ? & ? & ? & ? & ?) & ? & ?).
  unfold started in *. repeat split; etrans; eauto.
Qed.

Lemma started_processes (name : string) (tick : Z) (tasks : list Task) (s : State) :
  map_Forall (fun _ info => info_tick info = tick) (sup_processes s) ->
  map_Forall (fun _ info => info_tick info = tick)
    (sup_processes (started name tick tasks s)).
Proof.
  revert s. induction tasks as [| task tasks IH]; intros s Hall; [exact Hall |].
  cbn. apply IH. cbn. apply map_Forall_insert_2; [reflexivity | exact Hall].
Qed.

Lemma start_events_passes (cfg : Config) (tick : Z) (tasks : list Task) :
  launch_passes (start_events cfg tick tasks) = 0%nat.
Proof. unfold launch_passes. induction tasks; [reflexivity | exact IHtasks]. Qed.

(** C2: a launch pass that reads a non-negative tick different from
    [known_tick] first has the Supervisor terminate all Runners, then
    recomputes the launch parameters (starting with the task count), and
    only then, if that succeeded, fetches and starts tasks; every Runner
    alive after the pass was started by it for the new tick. *)
Theorem launch_tasks_terminates_first (s s' : State) (o : outcome unit)
    (evs : list Event) :
  0 <= db_current_tick s ->
  db_current_tick s <> known_tick s ->
  launch_tasks s = (o, s', evs) ->
  (exists rest,
     evs = EvGetCurrentTick :: EvTerminateRunners
             :: EvGetTaskCount (service_id (config s)) :: rest /\
     terminations rest = [] /\
     (rest = [] \/
      exists limit starts,
        rest = EvGetNewTasks (service_id (config s)) limit :: starts)) /\
  map_Forall (fun _ info => info_tick info = db_current_tick s) (sup_processes s').
Proof.
  intros Hrunning Hnew. rewrite launch_tasks_run.
  destruct (Z.ltb_spec (db_current_tick s) 0) as [| _]; [lia |].
  destruct (Z.eqb_spec (db_current_tick s) (known_tick s)) as [| _]; [done |].
  destruct (launch_params (config s) (db_task_count s)) as [n | e];
    intros [= <- <- <-].
  - split.
    + eexists. split; [reflexivity |]. split; [| right; eexists _, _; reflexivity].
      cbn. generalize (take (Z.to_nat n) (db_backlog s)).
      induction l; [reflexivity | exact IHl].
    + apply started_processes. cbn. apply map_Forall_empty.
  - split; [exists []; auto |]. cbn. apply map_Forall_empty.
Qed.

End LaunchPass.

(** ** The step: servicing and cadence *)

Lemma launch_passes_app (evs1 evs2 : list Event) :
  launch_passes (evs1 ++ evs2) = (launch_passes evs1 + launch_passes evs2)%nat.
Proof. unfold launch_passes. by rewrite flat_map_app, length_app. Qed.

Section Step.

Context `{Runtime}.

(** Servicing a request returns normally and leaves the cadence, the
    tick bookkeeping and the backlog alone. *)
Lemma step_request_frame (s : State) :
  exists s' evs,
    step_request s = (Normal (pending s), s', evs) /\
    same_cadence s s' /\ known_tick s' = known_tick s /\
    launch_passes evs = 0%nat /\ sup_queue s' = tail (sup_queue s) /\
    forall r q, sup_queue s = r :: q ->
      exists rest, evs = EvGetRequest :: (dispatch r (set_sup_queue q s)).2 ++ rest.
Proof.
  unfold pending. destruct (sup_queue s) as [| r q] eqn:Hq.
  { rewrite (step_request_idle s Hq). eexists _, _.
    split; [reflexivity |]. by repeat split. }
  rewrite (step_request_run s r q Hq).
  destruct (known_or_unknown r) as [Hk | Hu].
  - destruct (dispatch r (set_sup_queue q s)) as [[o s2] evs2] eqn:Hrun.
    destruct (dispatch_known_handler_like r Hk _ _ _ _ Hrun) as (Ho & Hs2 & Hevs2).
    destruct (handler_events_quiet _ Hevs2) as (_ & _ & Hl).
    destruct o as [[resp [|]] | e |]; [| | | done]; eexists _, _;
      (split; [reflexivity |]); rewrite Hs2;
      (repeat split; [| intros ? ? [= <- <-]; rewrite Hrun; eexists; reflexivity]);
      change (EvGetRequest :: ?l) with ([EvGetRequest] ++ l);
      rewrite !launch_passes_app, Hl; reflexivity.
  - rewrite (dispatch_unknown _ r Hu). eexists _, _.
    split; [reflexivity |]. repeat split.
    intros ? ? [= <- <-]. exists []. by rewrite (dispatch_unknown _ r Hu).
Qed.

(** C5: with [shutting_down] set, [step] is the servicing of one request
    and nothing else, whatever the clock reads: it makes no launch pass,
    leaves [last_launch] as it is and does not even read the clock, while a
    pending request is taken off the queue and dispatched. *)
Theorem step_shutting_down (fuel : nat) (s : State) :
  shutting_down s = true ->
  step fuel s = step_request s /\
  exists s' evs,
    step fuel s = (Normal (pending s), s', evs) /\
    launch_passes evs = 0%nat /\
    last_launch s' = last_launch s /\
    monotonic_reads s' = monotonic_reads s /\
    sup_queue s' = tail (sup_queue s) /\
    forall r q, sup_queue s = r :: q ->
      exists rest, evs = EvGetRequest :: (dispatch r (set_sup_queue q s)).2 ++ rest.
Proof.
  intros Hdown.
  destruct (step_request_frame s)
    as (s' & evs & Hrun & (_ & Hlast & Hstop & _ & _ & _ & Hreads) & _ & Hl & Hq & Hd).
  assert (Hstep : step fuel s = (Normal (pending s), s', evs)).
  { unfold step, bind at 1. rewrite Hrun. unfold bind, gets.
    rewrite Hstop, Hdown. cbn. by rewrite app_nil_r. }
  split; [by rewrite Hstep, Hrun |].
  exists s', evs. auto 10.
Qed.

Lemma fetch_and_start_frame (s : State) :
  same_cadence s (fetch_and_start s).1 /\
  known_tick (fetch_and_start s).1 = known_tick s /\
  launch_passes (fetch_and_start s).2 = 0%nat.
Proof.
  unfold fetch_and_start. cbn [fst snd].
  match goal with |- context [started ?name ?tick ?tasks ?s0] =>
    destruct (started_frame name tick tasks s0) as (Hc & Hk & _) end.
  split; [exact Hc |]. split; [exact Hk |].
  change (EvGetNewTasks ?a ?b :: ?l) with ([EvGetNewTasks a b] ++ l).
  rewrite launch_passes_app, start_events_passes. reflexivity.
Qed.




End Step.

(** ** Concrete runs *)

(** The properties above at the states of [Demo]: a tick change at the first
    launch pass, requests of each kind, and a step three intervals late. *)

Lemma launch_tasks_terminates_first_witness :
  exists rest,
    (@launch_tasks Demo.runtime (Demo.state (Demo.cfg 10 1 3) (-1) false [] 10)).2 =
    EvGetCurrentTick :: EvTerminateRunners :: EvGetTaskCount 1 :: rest.
Proof.
  destruct (@launch_tasks Demo.runtime (Demo.state (Demo.cfg 10 1 3) (-1) false [] 10))
    as [[o s'] evs] eqn:Hrun.
  destruct (@launch_tasks_terminates_first Demo.runtime
              (Demo.state (Demo.cfg 10 1 3) (-1) false [] 10) s' o evs)
    as ((rest & Hevs & _) & _).
  - vm_compute. discriminate.
  - vm_compute. discriminate.
  - exact Hrun.
  - exists rest. exact Hevs.
Defined.

Example launch_tasks_new_tick_run :
  (@launch_tasks Demo.runtime (Demo.state (Demo.cfg 10 1 3) (-1) false [] 10)).2 =
  [EvGetCurrentTick; EvTerminateRunners; EvGetTaskCount 1; EvGetNewTasks 1 (Some 1);
   EvLog INFO "Starting Checker Script for team %d in tick %d" [PInt 1; PInt 3];
   EvStartRunner ["checker.py"; "10.0.0.1"; "1"; "3"] (mkTaskInfo "web" 1 3)].
Proof. vm_compute. reflexivity. Qed.

Lemma step_request_protocol_error_witness :
  exists s' evs,
    @step_request Demo.runtime
      (Demo.state (Demo.cfg 10 1 3) 3 true [Demo.request "PING" PNone] 10)
    = (Normal true, s', evs) /\
    replies evs = [] /\ terminations evs = [Some 7%nat] /\
    sup_processes s' !! 8%nat = Some Demo.info8.
Proof.
  destruct (@step_request_protocol_error Demo.runtime
              (Demo.state (Demo.cfg 10 1 3) 3 true [Demo.request "PING" PNone] 10)
              (Demo.request "PING" PNone) [])
    as (s' & evs & Hrun & Hreplies & Hterm & _ & Hothers).
  - reflexivity.
  - left. repeat split; discriminate.
  - exists s', evs. repeat split; [exact Hrun | exact Hreplies | exact Hterm |].
    rewrite (Hothers 8%nat); [reflexivity | discriminate].
Defined.

(** A known action whose handling raises: STORE without parameters. *)
Example dispatch_store_raises :
  let s := Demo.state (Demo.cfg 10 1 3) 3 true [] 10 in
  @dispatch Demo.runtime (Demo.request "STORE" PNone) s = (Raise TypeError, s, []) /\
  @step_request Demo.runtime
    (Demo.state (Demo.cfg 10 1 3) 3 true [Demo.request "STORE" PNone] 10) =
  (Normal true, without_runner 7 s,
   [EvGetRequest; communication_error_log (Demo.request "STORE" PNone);
    EvTerminateRunner 7]).
Proof. split; vm_compute; reflexivity. Qed.

Lemma step_shutting_down_witness :
  exists s' evs,
    @step Demo.runtime 0
      (Demo.state (Demo.cfg 10 1 3) 3 true [Demo.request "LOAD" (PStr "k")] 100)
    = (Normal true, s', evs) /\
    launch_passes evs = 0%nat /\ sup_queue s' = [].
Proof.
  destruct (@step_shutting_down Demo.runtime 0
              (Demo.state (Demo.cfg 10 1 3) 3 true [Demo.request "LOAD" (PStr "k")] 100))
    as (_ & s' & evs & Hrun & Hpasses & _ & _ & Hqueue & _).
  - reflexivity.
  - exists s', evs. repeat split; [exact Hrun | exact Hpasses | exact Hqueue].
Defined.



(** A result code that is text of an integer outside the known codes, and
    one that is known. *)
Example result_out_of_range :
  @step_request Demo.runtime
    (Demo.state (Demo.cfg 10 1 3) 3 false [Demo.request "RESULT" (PStr "17")] 10) =
  (Normal true, Demo.state (Demo.cfg 10 1 3) 3 false [] 10,
   [EvGetRequest;
    EvLog ERROR "Invalid result from Checker Script for team %d in tick %d: %d"
      [PInt 7; PInt 3; PInt 17];
    EvSend 70 PNone]).
Proof. vm_compute. reflexivity. Qed.

Example result_committed :
  @step_request Demo.runtime
    (Demo.state (Demo.cfg 10 1 3) 3 false [Demo.request "RESULT" (PInt 1)] 10) =
  (Normal true, Demo.state (Demo.cfg 10 1 3) 3 false [] 10,
   [EvGetRequest;
    EvLog INFO "Result from Checker Script for team %d in tick %d: %d"
      [PInt 7; PInt 3; PInt 1];
    EvCommitResult 1 7 3 1;
    EvSend 70 PNone]).
Proof. vm_compute. reflexivity. Qed.

Lemma step_request_replies_once_witness :
  exists s' evs,
    @step_request Demo.runtime
      (Demo.state (Demo.cfg 10 1 3) 3 false [Demo.request "FLAG" (PDict ∅)] 10)
    = (Normal true, s', evs) /\
    replies evs = [(70%nat, PStr "FLAG_7")] /\ terminations evs = [].
Proof.
  destruct (@step_request_replies_once Demo.runtime
              (Demo.state (Demo.cfg 10 1 3) 3 false [Demo.request "FLAG" (PDict ∅)] 10)
              (Demo.request "FLAG" (PDict ∅)) [] (PStr "FLAG_7") true
              (Demo.state (Demo.cfg 10 1 3) 3 false [] 10) [])
    as (evs & Hrun & Hreplies & Hterm & _).
  - reflexivity.
  - left. reflexivity.
  - vm_compute. reflexivity.
  - eexists _, evs. repeat split; [exact Hrun | exact Hreplies | exact Hterm].
Defined.

(** STORE followed by LOAD of the same key: the acknowledgement of STORE is
    [None], the reply to LOAD is the stored value. *)
Example store_then_load :
  let store := Demo.request "STORE"
    (PDict (<["key" := PStr "k"]> (<["data" := PStr "v"]> ∅))) in
  let load := Demo.request "LOAD" (PStr "k") in
  let s := Demo.state (Demo.cfg 10 1 3) 3 true [store; load] 10 in
  exists s1 evs1 s2 evs2,
    @step Demo.runtime 0 s = (Normal true, s1, evs1) /\
    replies evs1 = [(70%nat, PNone)] /\
    @step Demo.runtime 0 s1 = (Normal true, s2, evs2) /\
    replies evs2 = [(70%nat, PStr "v")].
Proof. cbv zeta. eexists _, _, _, _. repeat split; vm_compute; reflexivity. Qed.

Lemma handle_flag_request_no_payload_witness :
  let s := Demo.state (Demo.cfg 10 1 3) 3 false [] 10 in
  @handle_flag_request Demo.runtime Demo.info7 (PDict (<["payload" := PStr ""]> ∅)) s =
  @handle_flag_request Demo.runtime Demo.info7 (PDict ∅) s.
Proof.
  cbv zeta.
  destruct (@handle_flag_request_no_payload Demo.runtime
              (Demo.state (Demo.cfg 10 1 3) 3 false [] 10) Demo.info7
              (∅ : gmap string pyval) (<["payload" := PStr ""]> ∅))
    as [Hsame _].
  - vm_compute. reflexivity.
  - vm_compute. reflexivity.
  - exact Hsame.
Defined.

(** A launch pass that raises ends the step: with a maximum check duration
    of 50 seconds in a 60 second tick, the first pass of a step that is three
    intervals late raises the configuration error after the Runners have
    been terminated, and [last_launch] has advanced by one interval only. *)
Example step_pass_raises :
  exists s',
    @step Demo.runtime 4 (Demo.state (Demo.cfg 50 1 3) (-1) false [] 10) =
    (Raise too_long, s',
     [EvGetRequest; EvGetCurrentTick; EvTerminateRunners; EvGetTaskCount 1]) /\
    last_launch s' = (0 + 3)%Q /\ known_tick s' = -1 /\ sup_processes s' = ∅.
Proof. eexists. split; [vm_compute; reflexivity |]. repeat split. Qed.

(** ** More on the launch-rate computation *)








(** ** More on launch passes *)

Lemma launch_events_quiet (evs : list Event) :
  Forall launch_event evs ->
  replies evs = [] /\ commits evs = [] /\ polls evs = 0%nat /\
  Forall (fun t => t = None) (terminations evs).
Proof.
  unfold polls.
  induction 1 as [| e evs He _ (IHr & IHc & IHp & IHt)]; [by repeat split |].
  destruct e; try done; cbn; rewrite ?IHr, ?IHc; auto.
Qed.

Section LaunchMore.

Context `{Runtime}.

Lemma start_events_readings (cfg : Config) (tick : Z) (tasks : list Task) :
  starts (start_events cfg tick tasks) = map (runner_for cfg tick) tasks /\
  terminations (start_events cfg tick tasks) = [] /\
  fetch_limits (start_events cfg tick tasks) = [] /\
  Forall launch_event (start_events cfg tick tasks).
Proof.
  unfold starts, terminations, fetch_limits, start_events.
  induction tasks as [| task tasks (IHs & IHt & IHf & IHl)]; [by repeat split |].
  cbn. rewrite IHs. repeat split; try assumption. by repeat constructor.
Qed.

(** Starting Runners only changes the Supervisor's registry. *)
Lemma started_registry_only (name : string) (tick : Z) (tasks : list Task) (s : State) :
  started name tick tasks s =
  set_sup_processes (sup_processes (started name tick tasks s))
    (sup_next_id (started name tick tasks s)) s.
Proof.
  revert s. induction tasks as [| task tasks IH]; intros s; [by destruct s |].
  unfold started in *. cbn [fold_left].
  etrans; [apply IH | reflexivity].
Qed.

Lemma fetch_and_start_readings (s : State) :
  let tasks := take (fetch_count s) (db_backlog s) in
  starts (fetch_and_start s).2 = map (runner_for (config s) (db_current_tick s)) tasks /\
  terminations (fetch_and_start s).2 = [] /\
  fetch_limits (fetch_and_start s).2 = [tasks_per_launch s] /\
  Forall launch_event (fetch_and_start s).2 /\
  db_backlog (fetch_and_start s).1 = drop (fetch_count s) (db_backlog s) /\
  known_tick (fetch_and_start s).1 = known_tick s /\
  tasks_per_launch (fetch_and_start s).1 = tasks_per_launch s /\
  launch_frame s (fetch_and_start s).1.
Proof.
  unfold fetch_and_start, fetch_count. cbn [fst snd].
  match goal with |- context [start_events ?cfg ?tick ?tasks] =>
    destruct (start_events_readings cfg tick tasks) as (Hs & Ht & Hf & Hl) end.
  rewrite started_registry_only.
  unfold starts, terminations, fetch_limits in *. cbn [flat_map app].
  rewrite Hs, Ht, Hf.
  repeat split; [by constructor].
Qed.


(** X5: no launch pass starts more Runners than the [tasks_per_launch] it
    leaves behind, whatever its outcome. *)
Theorem launch_tasks_start_bound (s s' : State) (o : outcome unit)
    (evs : list Event) (limit : Z) :
  launch_tasks s = (o, s', evs) ->
  tasks_per_launch s' = Some limit ->
  (length (starts evs) <= Z.to_nat limit)%nat.
Proof.
  rewrite launch_tasks_run.
  destruct (db_current_tick s <? 0); [intros [= <- <- <-] _; cbn; lia |].
  destruct (db_current_tick s =? known_tick s).
  - destruct (fetch_and_start_readings s) as (Hs & _ & _ & _ & _ & _ & Hp & _).
    cbv zeta in Hs. unfold fetch_count in Hs.
    set (fs := fetch_and_start s) in *. clearbody fs.
    intros [= <- <- <-]. rewrite Hp. intros Hlimit.
    unfold starts in *. cbn [flat_map app].
    rewrite Hs, length_map, length_take, Hlimit. lia.
  - destruct (launch_params (config s) (db_task_count s)) as [n | e].
    + destruct (fetch_and_start_readings (enter_tick n s))
        as (Hs & _ & _ & _ & _ & _ & Hp & _).
      cbv zeta in Hs. unfold fetch_count in Hs.
      set (fs := fetch_and_start (enter_tick n s)) in *. clearbody fs.
      cbn in Hs, Hp.
      intros [= <- <- <-]. rewrite Hp. intros [= <-].
      unfold starts in *. cbn [flat_map app].
      rewrite Hs, length_map, length_take. lia.
    + intros [= <- <- <-] _. cbn. lia.
Qed.

(** X6: when the launch parameters cannot be computed for a new tick, the
    launch pass raises that error after all Runners have been terminated;
    it fetches no task and leaves [known_tick] and [tasks_per_launch] as
    they were, so the next pass does exactly the same again. *)
Theorem launch_tasks_failed_recompute (s : State) (e : exn) :
  0 <= db_current_tick s ->
  db_current_tick s <> known_tick s ->
  launch_params (config s) (db_task_count s) = Err e ->
  let s' := set_sup_processes ∅ (sup_next_id s) s in
  let evs := [EvGetCurrentTick; EvTerminateRunners;
              EvGetTaskCount (service_id (config s))] in
  launch_tasks s = (Raise e, s', evs) /\
  launch_tasks s' = (Raise e, s', evs) /\
  known_tick s' = known_tick s /\ tasks_per_launch s' = tasks_per_launch s.
Proof.
  intros Hrunning Hnew Hfail. cbv zeta.
  rewrite !launch_tasks_run. cbn.
  destruct (Z.ltb_spec (db_current_tick s) 0) as [| _]; [lia |].
  destruct (Z.eqb_spec (db_current_tick s) (known_tick s)) as [| _]; [done |].
  rewrite Hfail. by repeat split.
Qed.

End LaunchMore.


Lemma launch_tasks_start_bound_witness :
  (length (starts
     (@launch_tasks Demo.runtime (Demo.state (Demo.cfg 10 1 3) (-1) false [] 10)).2)
   <= 1)%nat.
Proof.
  destruct (@launch_tasks Demo.runtime (Demo.state (Demo.cfg 10 1 3) (-1) false [] 10))
    as [[o s'] evs] eqn:Hrun.
  apply (@launch_tasks_start_bound Demo.runtime _ s' o evs 1 Hrun).
  vm_compute in Hrun. injection Hrun as <- <- <-. reflexivity.
Defined.

Lemma launch_tasks_failed_recompute_witness :
  let s := Demo.state (Demo.cfg 50 1 3) (-1) false [] 10 in
  @launch_tasks Demo.runtime s =
  (Raise too_long, set_sup_processes ∅ 9 s,
   [EvGetCurrentTick; EvTerminateRunners; EvGetTaskCount 1]).
Proof.
  cbv zeta.
  destruct (@launch_tasks_failed_recompute Demo.runtime
              (Demo.state (Demo.cfg 50 1 3) (-1) false [] 10) too_long)
    as (Hrun & _).
  - vm_compute. discriminate.
  - vm_compute. discriminate.
  - vm_compute. reflexivity.
  - exact Hrun.
Defined.

(** ** More on the request handlers *)

Section ProtocolMore.

Context `{Runtime}.

(** X7: a STORE of [data] under a text key followed by a LOAD: the LOAD
    yields [data] when it comes from the same team and names the same key;
    for another team or another key it yields what was stored for those
    before the STORE, or [None]. *)
Theorem store_load_round_trip (s : State) (info info' : TaskInfo) (d : gmap string pyval)
    (k k' : string) (v : pyval) :
  d !! "key" = Some (PStr k) ->
  d !! "data" = Some v ->
  exists s1,
    handle_store_request info (PDict d) s =
    (Normal tt, s1, [EvStoreState (service_id (config s)) (info_team info) (PStr k) v]) /\
    handle_load_request info' (PStr k') s1 =
    (Normal (if decide (info_team info' = info_team info /\ k' = k) then v
             else default PNone
                    (db_state s !! (service_id (config s), info_team info', k'))),
     s1, [EvLoadState (service_id (config s)) (info_team info') (PStr k')]).
Proof.
  intros Hkey Hdata.
  unfold handle_store_request, handle_load_request, bind, gets, lift_result, subscript.
  rewrite Hkey, Hdata. cbn. eexists. split; [reflexivity |].
  cbn [db_state config set_db_state]. do 3 f_equal.
  destruct (decide (info_team info' = info_team info /\ k' = k)) as [[-> ->] | Hne].
  - by rewrite lookup_insert_eq.
  - rewrite lookup_insert_ne; [reflexivity |]. intros [= ? ?]. apply Hne. by split.
Qed.

(** X8: a STORE request whose parameters lack the key or the data (or are
    no dictionary) stores nothing: the Runner is terminated without a
    reply and the state database is left as it was. *)
Theorem store_without_field (s : State) (r : Request) (q : list Request) :
  sup_queue s = r :: q ->
  req_action r = ACTION_STORE ->
  (exists e, subscript (req_param r) "key" = Err e) \/
  (exists e, subscript (req_param r) "data" = Err e) ->
  step_request s =
  (Normal true, without_runner (req_runner_id r) (set_sup_queue q s),
   [EvGetRequest; communication_error_log r; EvTerminateRunner (req_runner_id r)]).
Proof.
  intros Hq Hact Hmissing. rewrite (step_request_run s r q Hq).
  rewrite (dispatch_known r) by (unfold known_action; auto).
  rewrite Hact. cbn -[handle_store_request].
  unfold handle_store_request, bind, gets, lift_result. cbn.
  destruct (subscript (req_param r) "key") as [key | e1] eqn:Hkey; cbn.
  - destruct Hmissing as [(e & [=]) | (e & ->)]. reflexivity.
  - reflexivity.
Qed.

(** X9: the RESULT handler never changes the state; it commits exactly
    when [int(param)] succeeds with a known result code, and then once, for
    the team and the tick of the Runner's own task; it raises only what
    [int(param)] raises other than [ValueError]. *)
Theorem handle_result_request_commits (s s' : State) (info : TaskInfo) (param : pyval)
    (o : outcome unit) (evs : list Event) :
  handle_result_request info param s = (o, s', evs) ->
  s' = s /\
  commits evs =
    match py_int param with
    | Ok value =>
        if check_result_known value
        then [(service_id (config s), info_team info, info_tick info, value)]
        else []
    | Err _ => []
    end /\
  (o = Normal tt \/
   exists e, o = Raise e /\ py_int param = Err e /\ is_ValueError e = false).
Proof.
  unfold handle_result_request, bind, try_except, lift_result, CheckResult, gets.
  destruct (py_int param) as [value | e]; cbn.
  - destruct (check_result_known value); cbn; intros [= <- <- <-]; auto.
  - destruct (is_ValueError e) eqn:He; cbn; intros [= <- <- <-]; eauto 10.
Qed.


End ProtocolMore.

Lemma store_load_round_trip_witness :
  exists s1,
    handle_store_request Demo.info7
      (PDict (<["key" := PStr "k"]> (<["data" := PStr "v"]> ∅)))
      (Demo.state (Demo.cfg 10 1 3) 3 false [] 10) =
    (Normal tt, s1, [EvStoreState 1 7 (PStr "k") (PStr "v")]) /\
    handle_load_request Demo.info7 (PStr "k") s1 =
    (Normal (PStr "v"), s1, [EvLoadState 1 7 (PStr "k")]).
Proof.
  destruct (store_load_round_trip (Demo.state (Demo.cfg 10 1 3) 3 false [] 10)
              Demo.info7 Demo.info7
              (<["key" := PStr "k"]> (<["data" := PStr "v"]> ∅)) "k" "k" (PStr "v"))
    as (s1 & Hstore & Hload).
  - vm_compute. reflexivity.
  - vm_compute. reflexivity.
  - exists s1. split; [exact Hstore | exact Hload].
Defined.

Lemma store_without_field_witness :
  @step_request Demo.runtime
    (Demo.state (Demo.cfg 10 1 3) 3 false
       [Demo.request "STORE" (PDict (<["key" := PStr "k"]> ∅))] 10) =
  (Normal true,
   without_runner 7 (Demo.state (Demo.cfg 10 1 3) 3 false [] 10),
   [EvGetRequest;
    communication_error_log (Demo.request "STORE" (PDict (<["key" := PStr "k"]> ∅)));
    EvTerminateRunner 7]).
Proof.
  apply (@store_without_field Demo.runtime
           (Demo.state (Demo.cfg 10 1 3) 3 false
              [Demo.request "STORE" (PDict (<["key" := PStr "k"]> ∅))] 10)
           (Demo.request "STORE" (PDict (<["key" := PStr "k"]> ∅))) []).
  - reflexivity.
  - reflexivity.
  - right. exists (KeyError "data"). vm_compute. reflexivity.
Defined.

Lemma handle_result_request_commits_witness :
  commits
    (@handle_result_request Demo.runtime Demo.info7 (PStr "2")
       (Demo.state (Demo.cfg 10 1 3) 3 false [] 10)).2 = [(1, 7, 3, 2)].
Proof.
  destruct (@handle_result_request Demo.runtime Demo.info7 (PStr "2")
              (Demo.state (Demo.cfg 10 1 3) 3 false [] 10)) as [[o s'] evs] eqn:Hrun.
  destruct (@handle_result_request_commits Demo.runtime _ s' Demo.info7 (PStr "2") o evs Hrun)
    as (_ & Hcommits & _).
  exact Hcommits.
Defined.


(** ** What a step does to the whole system *)

Ltac readings :=
  unfold replies, terminations, starts, fetch_limits, commits, polls, launch_passes in *;
  cbn [flat_map app length] in *;
  rewrite ?flat_map_app, ?length_app in *.

Lemma handler_events_silent (evs : list Event) :
  Forall handler_event evs ->
  starts evs = [] /\ fetch_limits evs = [] /\ polls evs = 0%nat.
Proof.
  unfold polls.
  induction 1 as [| e evs He _ (IHs & IHf & IHp)]; [done |].
  destruct e; try done; cbn; rewrite ?IHs, ?IHf; auto.
Qed.

Section StepMore.

Context `{Runtime}.

(** Servicing a request returns normally; it only takes the request off the
    queue, lets its handler write the state database, and either answers on
    the request's connection or has its sender terminated. *)
Lemma step_request_effect (s : State) :
  exists s1 evs1,
    step_request s = (Normal (pending s), s1, evs1) /\
    polls evs1 = 1%nat /\ launch_passes evs1 = 0%nat /\
    starts evs1 = [] /\ fetch_limits evs1 = [] /\
    (((exists d, s1 = set_db_state d (set_sup_queue (tail (sup_queue s)) s)) /\
      terminations evs1 = [] /\
      (replies evs1 = [] \/
       exists r q resp, sup_queue s = r :: q /\ replies evs1 = [(req_send r, resp)]))
     \/
     (exists r q d,
        sup_queue s = r :: q /\
        s1 = set_db_state d (without_runner (req_runner_id r) (set_sup_queue q s)) /\
        terminations evs1 = [Some (req_runner_id r)] /\ replies evs1 = [])).
Proof.
  unfold pending. destruct (sup_queue s) as [| r q] eqn:Hq.
  { rewrite (step_request_idle s Hq). eexists _, _. split; [reflexivity |].
    repeat split. left. split; [| by auto].
    exists (db_state s). destruct s; cbn in *; by subst. }
  rewrite (step_request_run s r q Hq).
  destruct (known_or_unknown r) as [Hk | Hu].
  - destruct (dispatch r (set_sup_queue q s)) as [[o s2] evs2] eqn:Hrun.
    destruct (dispatch_known_handler_like r Hk _ _ _ _ Hrun) as (Ho & Hs2 & Hevs2).
    destruct (handler_events_quiet _ Hevs2) as (Hr & Ht & Hl).
    destruct (handler_events_silent _ Hevs2) as (Hst & Hf & Hp).
    destruct o as [[resp [|]] | e |]; [| | | done]; eexists _, _;
      (split; [reflexivity |]); readings; rewrite ?Hr, ?Ht, ?Hl, ?Hst, ?Hf, ?Hp;
      (repeat split; try reflexivity).
    + left. split; [by eauto |]. split; [reflexivity |]. right. by eauto.
    + left. split; [by eauto |]. split; [reflexivity |]. by left.
    + right. exists r, q, (db_state s2). split; [reflexivity |].
      split; [by rewrite Hs2 at 1 |]. by split.
  - rewrite (dispatch_unknown _ r Hu). eexists _, _. split; [reflexivity |].
    repeat split. right. exists r, q, (db_state s). split; [reflexivity |].
    split; [by destruct s |]. by split.
Qed.

Lemma launch_frame_trans (s1 s2 s3 : State) :
  launch_frame s1 s2 -> launch_frame s2 s3 -> launch_frame s1 s3.
Proof.
  unfold launch_frame. intros (? & ? & ? & ? & ? & ? & ? & ?) (? & ? & ? & ? & ? & ? & ? & ?).
  repeat split; etrans; eauto.
Qed.

(** Any launch pass, whatever its outcome. *)
Lemma launch_tasks_effect (s s' : State) (o : outcome unit) (evs : list Event) :
  launch_tasks s = (o, s', evs) ->
  o <> OutOfFuel /\ launch_frame s s' /\
  last_launch s' = last_launch s /\ monotonic_reads s' = monotonic_reads s /\
  Forall launch_event evs /\
  (params_ready s -> params_ready s' /\ Forall is_Some (fetch_limits evs)).
Proof.
  rewrite launch_tasks_run. unfold params_ready.
  destruct (Z.ltb_spec (db_current_tick s) 0) as [Hneg | Hpos].
  { intros [= <- <- <-]. repeat split; auto. }
  destruct (Z.eqb_spec (db_current_tick s) (known_tick s)) as [Hsame | Hnew].
  - destruct (fetch_and_start_readings s) as (_ & _ & Hf & Hl & _ & Hk & Hp & Hfr).
    destruct (fetch_and_start_frame s) as ((_ & Hlast & _ & _ & _ & _ & Hreads) & _).
    set (fs := fetch_and_start s) in *. clearbody fs.
    intros [= <- <- <-].
    split; [done |]. split; [exact Hfr |]. split; [exact Hlast |].
    split; [exact Hreads |]. split; [by constructor |].
    intros Hready. split; [by rewrite Hp, Hk |].
    readings. rewrite Hf. constructor; [| done]. apply Hready. lia.
  - destruct (launch_params (config s) (db_task_count s)) as [n | e].
    + destruct (fetch_and_start_readings (enter_tick n s))
        as (_ & _ & Hf & Hl & _ & Hk & Hp & Hfr).
      destruct (fetch_and_start_frame (enter_tick n s))
        as ((_ & Hlast & _ & _ & _ & _ & Hreads) & _).
      set (fs := fetch_and_start (enter_tick n s)) in *. clearbody fs.
      cbn in Hf, Hk, Hp, Hlast, Hreads.
      intros [= <- <- <-].
      split; [done |].
      split; [apply (launch_frame_trans s (enter_tick n s)); [by repeat split | exact Hfr] |].
      split; [exact Hlast |]. split; [exact Hreads |].
      split; [by repeat constructor |].
      intros _. split; [by rewrite Hp |].
      readings. rewrite Hf. by repeat constructor.
    + intros [= <- <- <-].
      split; [done |]. split; [by repeat split |]. split; [done |]. split; [done |].
      split; [by repeat constructor |]. auto.
Qed.

(** The launch loop, whatever its outcome. *)
Lemma launch_loop_effect (fuel : nat) :
  forall (s s' : State) (o : outcome unit) (evs : list Event),
    launch_loop fuel s = (o, s', evs) ->
    launch_frame s s' /\ Forall launch_event evs /\
    (params_ready s -> params_ready s' /\ Forall is_Some (fetch_limits evs)).
Proof.
  induction fuel as [| fuel IH]; intros s s' o evs.
  { intros [= <- <- <-]. by repeat split. }
  cbn [launch_loop]. unfold bind at 1 2 3. cbn -[launch_tasks launch_loop Qle_bool].
  destruct (Qle_bool _ _).
  2: { intros [= <- <- <-]. by repeat split. }
  unfold bind at 1 2. cbn -[launch_tasks launch_loop].
  set (s1 := set_last_launch _ _).
  destruct (launch_tasks s1) as [[o2 s2] evs2] eqn:Hpass.
  destruct (launch_tasks_effect _ _ _ _ Hpass) as (Ho2 & Hfr2 & _ & _ & Hev2 & Hready2).
  assert (Hfr1 : launch_frame s s1) by (by repeat split).
  destruct o2 as [[] | e |]; [| | done].
  - destruct (launch_loop fuel s2) as [[o3 s3] evs3] eqn:Hloop.
    destruct (IH _ _ _ _ Hloop) as (Hfr3 & Hev3 & Hready3).
    intros [= <- <- <-].
    split; [eauto using launch_frame_trans |].
    split; [by apply Forall_app |].
    intros Hready. destruct (Hready2 Hready) as (Hr2 & Hl2).
    destruct (Hready3 Hr2) as (Hr3 & Hl3). split; [exact Hr3 |].
    readings. by apply Forall_app.
  - intros [= <- <- <-].
    split; [eauto using launch_frame_trans |]. split; [exact Hev2 |].
    intros Hready. exact (Hready2 Hready).
Qed.

Lemma step_request_fields (s s1 : State) (o : outcome bool) (evs1 : list Event) :
  step_request s = (o, s1, evs1) ->
  config s1 = config s /\ known_tick s1 = known_tick s /\
  last_launch s1 = last_launch s /\ tasks_per_launch s1 = tasks_per_launch s /\
  shutting_down s1 = shutting_down s /\ db_backlog s1 = db_backlog s /\
  sup_queue s1 = tail (sup_queue s) /\ sup_processes s1 ⊆ sup_processes s.
Proof.
  destruct (step_request_effect s) as (s1' & evs1' & Hrun & _ & _ & _ & _ & Heffect).
  rewrite Hrun. intros [= _ <- _].
  destruct Heffect as [((d & ->) & _) | (r & q & d & Hq & -> & _)].
  - by repeat split.
  - rewrite Hq. repeat split. cbn. apply delete_subseteq.
Qed.

Lemma step_run (fuel : nat) (s : State) :
  exists s1 evs1,
    step_request s = (Normal (pending s), s1, evs1) /\
    step fuel s =
    if shutting_down s then (Normal (pending s), s1, evs1)
    else match launch_loop fuel s1 with
         | (Normal _, s2, evs2) => (Normal (pending s), s2, evs1 ++ evs2)
         | (Raise e, s2, evs2) => (Raise e, s2, evs1 ++ evs2)
         | (OutOfFuel, s2, evs2) => (OutOfFuel, s2, evs1 ++ evs2)
         end.
Proof.
  destruct (step_request_effect s) as (s1 & evs1 & Hrun & _).
  exists s1, evs1. split; [exact Hrun |].
  destruct (step_request_fields _ _ _ _ Hrun) as (_ & _ & _ & _ & Hstop & _).
  unfold step, bind at 1. rewrite Hrun. unfold bind, gets. rewrite Hstop.
  destruct (shutting_down s); cbn -[launch_loop]; [by rewrite app_nil_r |].
  destruct (launch_loop fuel s1) as [[[[] | e |] s2] evs2]; by rewrite ?app_nil_r.
Qed.

(** X11: servicing a request always returns normally and cannot reach
    beyond its sender: it leaves [known_tick], [last_launch],
    [tasks_per_launch], the shutdown flag and the backlog as they are,
    starts no Runner and makes no launch pass, and the only Runner it can
    have terminated is the sender of the request. *)
Theorem step_request_isolation (s : State) :
  exists s1 evs1,
    step_request s = (Normal (pending s), s1, evs1) /\
    known_tick s1 = known_tick s /\ last_launch s1 = last_launch s /\
    tasks_per_launch s1 = tasks_per_launch s /\
    shutting_down s1 = shutting_down s /\ db_backlog s1 = db_backlog s /\
    starts evs1 = [] /\ launch_passes evs1 = 0%nat /\
    (terminations evs1 = [] \/
     exists r q, sup_queue s = r :: q /\ terminations evs1 = [Some (req_runner_id r)]) /\
    forall runner_id,
      (forall r q, sup_queue s = r :: q -> runner_id <> req_runner_id r) ->
      sup_processes s1 !! runner_id = sup_processes s !! runner_id.
Proof.
  destruct (step_request_effect s)
    as (s1 & evs1 & Hrun & _ & Hpasses & Hstarts & _ & Heffect).
  destruct (step_request_fields _ _ _ _ Hrun) as (_ & Hk & Hl & Ht & Hs & Hb & _).
  exists s1, evs1. do 8 (split; [assumption |]).
  destruct Heffect as [((d & ->) & Hterm & _) | (r & q & d & Hq & -> & Hterm & _)].
  - split; [by left |]. reflexivity.
  - split; [right; by eauto |].
    intros runner_id Hother. cbn. apply lookup_delete_ne.
    intros <-. by apply (Hother r q).
Qed.

(** X12: whatever its outcome, a step polls the request queue exactly once
    and takes at most its first request off it; it sends at most one reply,
    and that on the connection of the request it took. *)
Theorem step_one_request (fuel : nat) (s s' : State) (o : outcome bool)
    (evs : list Event) :
  step fuel s = (o, s', evs) ->
  polls evs = 1%nat /\ sup_queue s' = tail (sup_queue s) /\
  (replies evs = [] \/
   exists r q resp, sup_queue s = r :: q /\ replies evs = [(req_send r, resp)]).
Proof.
  destruct (step_run fuel s) as (s1 & evs1 & Hreq & ->).
  destruct (step_request_effect s) as (s1' & evs1' & Hreq' & Hpolls & _ & _ & _ & Heffect).
  rewrite Hreq in Hreq'. injection Hreq' as <- <-.
  destruct (step_request_fields _ _ _ _ Hreq) as (_ & _ & _ & _ & _ & _ & Hqueue & _).
  assert (Hreplies : replies evs1 = [] \/
            exists r q resp, sup_queue s = r :: q /\ replies evs1 = [(req_send r, resp)]).
  { destruct Heffect as [(_ & _ & Hr) | (r & q & d & _ & _ & _ & Hr)]; [exact Hr | by left]. }
  destruct (shutting_down s); [by intros [= <- <- <-] |].
  destruct (launch_loop fuel s1) as [[o2 s2] evs2] eqn:Hloop.
  destruct (launch_loop_effect _ _ _ _ _ Hloop) as ((_ & _ & Hq2 & _) & Hev2 & _).
  destruct (launch_events_quiet _ Hev2) as (Hr2 & _ & Hp2 & _).
  assert (Hgoal : polls (evs1 ++ evs2) = 1%nat /\ sup_queue s2 = tail (sup_queue s) /\
            (replies (evs1 ++ evs2) = [] \/
             exists r q resp, sup_queue s = r :: q /\
                              replies (evs1 ++ evs2) = [(req_send r, resp)])).
  { readings. rewrite Hr2, Hp2, Hpolls, Hq2, Hqueue, !app_nil_r.
    split; [lia |]. split; [reflexivity | exact Hreplies]. }
  destruct o2 as [[] | e |]; by intros [= <- <- <-].
Qed.

(** X13: once [tasks_per_launch] is computed whenever a tick is known, a
    step keeps it so, and every fetch of tasks in the step passes a limit to
    [get_new_tasks], never [None]. *)
Theorem step_fetches_with_limit (fuel : nat) (s s' : State) (o : outcome bool)
    (evs : list Event) :
  params_ready s ->
  step fuel s = (o, s', evs) ->
  params_ready s' /\ Forall is_Some (fetch_limits evs).
Proof.
  intros Hready.
  destruct (step_run fuel s) as (s1 & evs1 & Hreq & ->).
  destruct (step_request_effect s) as (s1' & evs1' & Hreq' & _ & _ & _ & Hfetch & _).
  rewrite Hreq in Hreq'. injection Hreq' as <- <-.
  destruct (step_request_fields _ _ _ _ Hreq) as (_ & Hk & _ & Ht & _).
  assert (Hready1 : params_ready s1) by (unfold params_ready; by rewrite Hk, Ht).
  destruct (shutting_down s).
  { intros [= <- <- <-]. split; [exact Hready1 |]. by rewrite Hfetch. }
  destruct (launch_loop fuel s1) as [[o2 s2] evs2] eqn:Hloop.
  destruct (launch_loop_effect _ _ _ _ _ Hloop) as (_ & _ & Hkeep).
  destruct (Hkeep Hready1) as (Hready2 & Hlimits).
  assert (Hgoal : params_ready s2 /\ Forall is_Some (fetch_limits (evs1 ++ evs2))).
  { split; [exact Hready2 |]. readings. by rewrite Hfetch. }
  destruct o2 as [[] | e |]; by intros [= <- <- <-].
Qed.

End StepMore.

(** ** The main loop, shutdown and construction *)

Section MainMore.

Context `{Runtime}.

Lemma main_loop_unfold (fuel step_fuel : nat) (s : State) :
  main_loop (S fuel) step_fuel s =
  match step step_fuel s with
  | (Normal _, s1, evs1) =>
      if shutting_down s1 && (Z.of_nat (size (sup_processes s1)) =? 0)
      then (Normal EX_OK, s1, evs1)
      else match main_loop fuel step_fuel s1 with
           | (o, s2, evs2) => (o, s2, evs1 ++ evs2)
           end
  | (Raise e, s1, evs1) =>
      match main_loop fuel step_fuel s1 with
      | (o, s2, evs2) => (o, s2, evs1 ++ EvLog EXCEPTION "Error in main loop:" [] :: evs2)
      end
  | (OutOfFuel, s1, evs1) => (OutOfFuel, s1, evs1)
  end.
Proof.
  cbn [main_loop]. unfold bind at 1, try_except_else, bind at 1.
  destruct (step step_fuel s) as [[[handled | e |] s1] evs1]; cbn -[main_loop step].
  - destruct (shutting_down s1); cbn -[main_loop step].
    + destruct (Z.of_nat (size (sup_processes s1)) =? 0); cbn -[main_loop step].
      * by rewrite !app_nil_r.
      * destruct (main_loop fuel step_fuel s1) as [[o s2] evs2].
        by rewrite !app_nil_r.
    + destruct (main_loop fuel step_fuel s1) as [[o s2] evs2].
      by rewrite !app_nil_r.
  - destruct (main_loop fuel step_fuel s1) as [[o s2] evs2].
    by rewrite <- !app_assoc.
  - reflexivity.
Qed.

(** X14: the main loop never ends with an exception: whatever a step
    raises is logged and the loop goes on. It returns only [EX_OK], and only
    in a state that is shutting down with no Checker Script left. *)
Theorem main_loop_returns (fuel step_fuel : nat) :
  forall (s s' : State) (o : outcome Z) (evs : list Event),
    main_loop fuel step_fuel s = (o, s', evs) ->
    o = OutOfFuel \/
    (o = Normal EX_OK /\ shutting_down s' = true /\ sup_processes s' = ∅).
Proof.
  induction fuel as [| fuel IH]; intros s s' o evs.
  { intros [= <- _ _]. by left. }
  rewrite main_loop_unfold.
  destruct (step step_fuel s) as [[[handled | e |] s1] evs1].
  - destruct (shutting_down s1) eqn:Hstop; cbn [andb].
    + destruct (Z.eqb_spec (Z.of_nat (size (sup_processes s1))) 0) as [Hnone | _].
      * intros [= <- <- _]. right. split; [reflexivity |]. split; [exact Hstop |].
        apply map_size_empty_inv. lia.
      * destruct (main_loop fuel step_fuel s1) as [[o2 s2] evs2] eqn:Hloop.
        intros [= <- <- _]. exact (IH _ _ _ _ Hloop).
    + destruct (main_loop fuel step_fuel s1) as [[o2 s2] evs2] eqn:Hloop.
      intros [= <- <- _]. exact (IH _ _ _ _ Hloop).
  - destruct (main_loop fuel step_fuel s1) as [[o2 s2] evs2] eqn:Hloop.
    intros [= <- <- _]. exact (IH _ _ _ _ Hloop).
  - intros [= <- _ _]. by left.
Qed.

(** X15: when the loop is shutting down and no Checker Script is left, the
    next step is the last: it services one request like any step, and the
    main loop returns [EX_OK]. *)
Theorem main_loop_exits (fuel step_fuel : nat) (s : State) :
  shutting_down s = true ->
  sup_processes s = ∅ ->
  exists s1 evs1,
    step_request s = (Normal (pending s), s1, evs1) /\
    main_loop (S fuel) step_fuel s = (Normal EX_OK, s1, evs1).
Proof.
  intros Hstop Hnone.
  destruct (step_run step_fuel s) as (s1 & evs1 & Hreq & Hstep).
  destruct (step_request_fields _ _ _ _ Hreq) as (_ & _ & _ & _ & Hstop1 & _ & _ & Hsub).
  exists s1, evs1. split; [exact Hreq |].
  rewrite main_loop_unfold, Hstep, Hstop, Hstop1, Hstop.
  apply map_subseteq_size in Hsub. rewrite Hnone, map_size_empty in Hsub.
  destruct (Z.eqb_spec (Z.of_nat (size (sup_processes s1))) 0) as [_ | Hne]; [reflexivity | lia].
Qed.

Lemma main_loop_draining (fuel step_fuel : nat) :
  forall (s s' : State) (o : outcome Z) (evs : list Event),
    shutting_down s = true ->
    main_loop fuel step_fuel s = (o, s', evs) ->
    shutting_down s' = true /\ launch_passes evs = 0%nat /\ starts evs = [] /\
    Forall is_Some (terminations evs) /\ sup_processes s' ⊆ sup_processes s.
Proof.
  induction fuel as [| fuel IH]; intros s s' o evs Hstop.
  { intros [= _ <- <-]. by repeat split. }
  rewrite main_loop_unfold.
  destruct (step_run step_fuel s) as (s1 & evs1 & Hreq & ->). rewrite Hstop.
  destruct (step_request_effect s)
    as (s1' & evs1' & Hreq' & _ & Hpasses & Hstarts & _ & Heffect).
  rewrite Hreq in Hreq'. injection Hreq' as <- <-.
  destruct (step_request_fields _ _ _ _ Hreq) as (_ & _ & _ & _ & Hstop1 & _ & _ & Hsub).
  rewrite Hstop in Hstop1.
  assert (Hterm : Forall is_Some (terminations evs1)).
  { destruct Heffect as [(_ & -> & _) | (r & q & d & _ & _ & -> & _)];
      by repeat constructor. }
  rewrite Hstop1. cbn [andb].
  destruct (Z.of_nat (size (sup_processes s1)) =? 0).
  { intros [= _ <- <-]. by repeat split. }
  destruct (main_loop fuel step_fuel s1) as [[o2 s2] evs2] eqn:Hloop.
  destruct (IH _ _ _ _ Hstop1 Hloop) as (Hstop2 & Hp2 & Hs2 & Ht2 & Hsub2).
  intros [= _ <- <-]. readings. rewrite Hpasses, Hstarts, Hp2, Hs2.
  repeat split; [exact Hstop2 | by apply Forall_app | by etrans].
Qed.

(** X16: after [sigterm_handler] has run, the main loop only drains: it
    makes no launch pass and starts no Runner, it never has all Runners
    terminated (only senders of broken requests, one by one), the
    Supervisor's registry does not grow, and the shutdown flag stays set. *)
Theorem main_loop_after_sigterm (fuel step_fuel : nat) (s s' : State)
    (o : outcome Z) (evs : list Event) :
  (sigterm_handler ;;; main_loop fuel step_fuel) s = (o, s', evs) ->
  shutting_down s' = true /\ launch_passes evs = 0%nat /\ starts evs = [] /\
  Forall is_Some (terminations evs) /\ sup_processes s' ⊆ sup_processes s.
Proof.
  unfold sigterm_handler, get_running_script_count, bind at 1 2 3. cbn -[main_loop].
  destruct (main_loop fuel step_fuel (set_shutting_down true s))
    as [[o2 s2] evs2] eqn:Hloop.
  intros [= _ <- <-].
  destruct (main_loop_draining fuel step_fuel (set_shutting_down true s) s2 o2 evs2
              eq_refl Hloop) as (? & ? & ? & ? & ?).
  by repeat split.
Qed.


End MainMore.

(** ** The start of [main] *)




Section Startup.

Context `{Runtime}.



End Startup.

(** X20: the construction of the [MasterLoop] is retried exactly as long as
    it fails with [DBDataError]: if the first [k] attempts fail so and the
    next one succeeds, the loop yields the object of that attempt after [k]
    warnings. *)
Theorem construct_master_loop_retries (k : nat) :
  forall (fuel : nat) (envs : nat -> Environment) (attempt : nat) (args : MasterArgs)
         (s0 : State),
    (forall i, (i < k)%nat ->
       exists e, MasterLoop_init (envs (attempt + i)%nat) args = Err e /\
                 is_DBDataError e = true) ->
    MasterLoop_init (envs (attempt + k)%nat) args = Ok s0 ->
    (k < fuel)%nat ->
    construct_master_loop fuel envs attempt args = (Normal s0, k).
Proof.
  induction k as [| k IH]; intros fuel envs attempt args s0 Hfail Hok Hfuel;
    (destruct fuel as [| fuel]; [lia |]); cbn [construct_master_loop].
  - rewrite Nat.add_0_r in Hok. by rewrite Hok.
  - destruct (Hfail 0%nat ltac:(lia)) as (e & Herr & Hdb).
    rewrite Nat.add_0_r in Herr. rewrite Herr, Hdb.
    rewrite (IH fuel envs (S attempt) args s0); [reflexivity | | | lia].
    + intros i Hi. destruct (Hfail (S i) ltac:(lia)) as (e' & Herr' & Hdb').
      exists e'. by rewrite Nat.add_succ_comm.
    + by rewrite Nat.add_succ_comm.
Qed.

(** ** Concrete runs of the step, the main loop and the startup *)

Lemma step_one_request_witness :
  polls
    (@step Demo.runtime 4
       (Demo.state (Demo.cfg 10 1 3) (-1) false [Demo.request "FLAG" (PDict ∅)] 10)).2
  = 1%nat.
Proof.
  destruct (@step Demo.runtime 4
              (Demo.state (Demo.cfg 10 1 3) (-1) false [Demo.request "FLAG" (PDict ∅)] 10))
    as [[o s'] evs] eqn:Hrun.
  destruct (@step_one_request Demo.runtime _ _ _ _ _ Hrun) as (Hpolls & _).
  exact Hpolls.
Defined.

Lemma step_fetches_with_limit_witness :
  Forall is_Some
    (fetch_limits
       (@step Demo.runtime 4 (Demo.state (Demo.cfg 10 1 3) (-1) false [] 10)).2).
Proof.
  destruct (@step Demo.runtime 4 (Demo.state (Demo.cfg 10 1 3) (-1) false [] 10))
    as [[o s'] evs] eqn:Hrun.
  destruct (@step_fetches_with_limit Demo.runtime 4
              (Demo.state (Demo.cfg 10 1 3) (-1) false [] 10) s' o evs)
    as (_ & Hlimits).
  - intros _. exists 1. reflexivity.
  - exact Hrun.
  - exact Hlimits.
Defined.

Example step_fetch_limits_run :
  fetch_limits
    (@step Demo.runtime 4 (Demo.state (Demo.cfg 10 1 3) (-1) false [] 10)).2
  = [Some 1; Some 1; Some 1].
Proof. vm_compute. reflexivity. Qed.

Lemma main_loop_returns_witness :
  (@main_loop Demo.runtime 2 0 (Demo.state (Demo.cfg 10 1 3) 3 true [] 10)).1.1
  = OutOfFuel.
Proof.
  destruct (@main_loop Demo.runtime 2 0 (Demo.state (Demo.cfg 10 1 3) 3 true [] 10))
    as [[o s'] evs] eqn:Hrun.
  destruct (@main_loop_returns Demo.runtime _ _ _ _ _ _ Hrun) as [-> | (_ & _ & Hnone)].
  - reflexivity.
  - vm_compute in Hrun. injection Hrun as _ <- _. discriminate Hnone.
Defined.

Lemma main_loop_exits_witness :
  exists s1 evs1,
    @main_loop Demo.runtime 1 0
      (without_runner 7 (without_runner 8
         (Demo.state (Demo.cfg 10 1 3) 3 true [Demo.request "RESULT" (PInt 0)] 100)))
    = (Normal EX_OK, s1, evs1) /\
    commits evs1 = [(1, 7, 3, 0)].
Proof.
  destruct (@main_loop_exits Demo.runtime 0 0
              (without_runner 7 (without_runner 8
                 (Demo.state (Demo.cfg 10 1 3) 3 true
                    [Demo.request "RESULT" (PInt 0)] 100))))
    as (s1 & evs1 & Hreq & Hmain).
  - reflexivity.
  - vm_compute. reflexivity.
  - exists s1, evs1. split; [exact Hmain |].
    vm_compute in Hreq. injection Hreq as <- <-. reflexivity.
Defined.

Lemma main_loop_after_sigterm_witness :
  starts
    ((sigterm_handler ;;; @main_loop Demo.runtime 2 4)
       (Demo.state (Demo.cfg 10 1 3) 3 false [Demo.request "PING" PNone] 100)).2 = [].
Proof.
  destruct ((sigterm_handler ;;; @main_loop Demo.runtime 2 4)
              (Demo.state (Demo.cfg 10 1 3) 3 false [Demo.request "PING" PNone] 100))
    as [[o s'] evs] eqn:Hrun.
  destruct (@main_loop_after_sigterm Demo.runtime _ _ _ _ _ _ Hrun) as (_ & _ & Hstarts & _).
  exact Hstarts.
Defined.




Example main_gelf_server_without_port :
  (@main_check_args Demo.runtime (DemoMain.main_args "graylog") false true).1 =
  Exit EX_USAGE.
Proof. vm_compute. reflexivity. Qed.

Lemma construct_master_loop_retries_witness :
  exists s0,
    construct_master_loop 5
      (fun attempt => if (attempt <? 2)%nat then DemoMain.env_unready else DemoMain.env)
      0 DemoMain.args = (Normal s0, 2%nat).
Proof.
  destruct (MasterLoop_init DemoMain.env DemoMain.args) as [s0 |] eqn:Hinit;
    [| discriminate].
  exists s0.
  apply (construct_master_loop_retries 2 5
           (fun attempt => if (attempt <? 2)%nat then DemoMain.env_unready else DemoMain.env)
           0 DemoMain.args s0).
  - intros i Hi. exists DBDataError.
    destruct i as [| [| i]]; [| | lia]; split; reflexivity.
  - exact Hinit.
  - lia.
Defined.
